(** * GlueUi: an immediate-mode UI layer over SDL2

    A shallow embedding of [GlueUi.py] and the properties of its widget
    state machine: hit-testing, palette resolution, the click edge of
    [Button], the debounced toggle of [Checkbox], and the draw calls of
    [Rect], [Text] and [TextWrapped].

    Python integers are [Z].  The dictionaries [Buttons], [CheckboxStates]
    and [Fonts] are finite maps keyed by strings.  A method of [UiManager]
    is a computation over the engine state, the sampled mouse state and the
    list of calls made on the window surface; it either returns a value or
    raises a Python exception, keeping the mutations made so far. *)

From Stdlib Require Import ZArith QArith Ascii String.
From stdpp Require Import base option list strings gmap.

Local Open Scope Z_scope.

(** ** Geometry *)

(** [class Nat2]: a pair of Python integers. *)
Record Nat2 := mkNat2 { X : Z; Y : Z }.

(** The right operand of [Nat2.__add__]: another [Nat2] or an [int]. *)
Inductive Addend :=
| OfNat2 (other : Nat2)
| OfInt (other : Z).

Coercion OfNat2 : Nat2 >-> Addend.

(** [Nat2.__add__]. *)
Definition Nat2_add (self : Nat2) (other : Addend) : Nat2 :=
  match other with
  | OfNat2 o => mkNat2 (X self + X o) (Y self + Y o)
  | OfInt k => mkNat2 (X self + k) (Y self + k)
  end.

(** [class Rect]. *)
Record Rect := mkRect { XY : Nat2; WH : Nat2 }.

(** [class Vec4]: the four channels are floats that the engine only stores
    and hands to the backend; they are carried as rationals. *)
Record Vec4 := mkVec4 { R : Q; G : Q; B : Q; A : Q }.

(** ** Python sequences *)

(** [l[i]] on a Python list: a negative index counts from the end, and an
    index outside [[-len l, len l)] raises [IndexError] (here [None]). *)
Definition py_index {T} (l : list T) (i : Z) : option T :=
  let n := Z.of_nat (length l) in
  if 0 <=? i then l !! Z.to_nat i
  else if - n <=? i then l !! Z.to_nat (n + i)
  else None.

(** [s.split(sep)] for a one-character separator. *)
Fixpoint str_split (sep : ascii) (s : string) : list string :=
  match s with
  | EmptyString => [EmptyString]
  | String c rest =>
      if Ascii.eqb c sep then EmptyString :: str_split sep rest
      else match str_split sep rest with
           | [] => [String c EmptyString]
           | piece :: pieces => String c piece :: pieces
           end
  end.

(** [enumerate(l)], counting from [start]. *)
Fixpoint enumerate_from {T} (start : Z) (l : list T) : list (Z * T) :=
  match l with
  | [] => []
  | x :: rest => (start, x) :: enumerate_from (start + 1) rest
  end.

Definition enumerate {T} (l : list T) : list (Z * T) := enumerate_from 0 l.

Definition newline : ascii := "010"%char.

(** ** The SDL2 backend, as far as the engine observes it *)

Module sdl2.

(** [SDL_Rect(x, y, w, h)].  The fields are C ints; coordinates are taken
    in their range, where the stored value is the Python integer. *)
Record SDL_Rect := mkSDL_Rect { x : Z; y : Z; w : Z; h : Z }.

(** What [TextSurface.contents] exposes of a rendered text surface. *)
Record SDL_Surface := mkSDL_Surface { surf_w : Z; surf_h : Z; pixels : list Z }.

(** An open font, as stored in [UiManager.Fonts]. *)
Definition TTF_Font := Z.

Definition SDL_BUTTON_LEFT : Z := 1.
Definition SDL_BUTTON_MIDDLE : Z := 2.
Definition SDL_BUTTON_RIGHT : Z := 3.

(** The macro [SDL_BUTTON(X)]. *)
Definition SDL_BUTTON (X : Z) : Z := Z.shiftl 1 (X - 1).

(** What [SDL_GetMouseState] reports: cursor position and button mask. *)
Record MouseState := mkMouseState { mouse_x : Z; mouse_y : Z; button_state : Z }.

(** The calls that paint on the window surface [self.Surface]. *)
Inductive DrawCall :=
| SDL_FillRect (rect : SDL_Rect) (color : Vec4)
| SDL_BlitSurface (src : SDL_Surface) (dstrect : SDL_Rect).

End sdl2.

(** Text rendering is the backend's: [TTF_RenderUTF8_Blended] yields a
    surface or [NULL] (here [None]), and [SDL_GetError] the message of the
    last failure.  The colour is passed as resolved from the palette. *)
Class RenderBackend := {
  TTF_RenderUTF8_Blended : sdl2.TTF_Font → string → Vec4 → option sdl2.SDL_Surface;
  SDL_GetError : string
}.


(** ** Exceptions and results *)

(** The exceptions the engine raises; a callable may raise any of them. *)
Inductive PyExn :=
| IndexError
| KeyError (key : string)
| RuntimeError (msg : string)
| ValueError (msg : string).

Inductive Result (T : Type) :=
| Ok (v : T)
| Raise (e : PyExn).
Arguments Ok {T} v.
Arguments Raise {T} e.

(** ** Palettes given as tuples *)

(** [TupleToVec4]: a tuple is the list of its components; the fourth
    channel takes the default of [Vec4], 1.  A missing component raises
    [IndexError]. *)
Definition TupleToVec4 (t : list Z) : Result Vec4 :=
  match py_index t 0, py_index t 1, py_index t 2 with
  | Some t0, Some t1, Some t2 => Ok (mkVec4 (inject_Z t0) (inject_Z t1) (inject_Z t2) 1)
  | _, _, _ => Raise IndexError
  end.

(** [ColorPaletteToVec4]: the list comprehension, left to right. *)
Fixpoint ColorPaletteToVec4 (l : list (list Z)) : Result (list Vec4) :=
  match l with
  | [] => Ok []
  | tup :: rest =>
      match TupleToVec4 tup with
      | Raise e => Raise e
      | Ok v =>
          match ColorPaletteToVec4 rest with
          | Raise e => Raise e
          | Ok vs => Ok (v :: vs)
          end
      end
  end.

(** ** Per-widget records *)

(** The dictionary stored in [self.Buttons[Label]]. *)
Module ButtonState.
Record t := mk { active : bool; mouse_down : bool; prev_mouse_down : bool }.
Definition set_prev_mouse_down (v : bool) (r : t) : t :=
  mk (active r) (mouse_down r) v.
End ButtonState.

(** The dictionary stored in [self.CheckboxStates[Label]]. *)
Module CheckboxState.
Record t := mk { checked : bool; mouse_down : bool }.
Definition set_checked (v : bool) (r : t) : t := mk v (mouse_down r).
Definition set_mouse_down (v : bool) (r : t) : t := mk (checked r) v.
End CheckboxState.

(** The argument of [IsClick]. *)
Inductive MouseButton := Left | Right | Middle.

Local Abbreviation RectT := Rect (only parsing).

(** ** [class UiManager] *)

Module UiManager.

(** The fields of the engine that persist across frames.  The window,
    renderer and event handles, and the unused [Images] and [Textures]
    lists, carry no widget state and are left out. *)
Record t := mk {
  Running : bool;
  Fonts : gmap string sdl2.TTF_Font;
  ActiveMenu : string;
  CheckboxStates : gmap string CheckboxState.t;
  Buttons : gmap string ButtonState.t;
  ColorPalette : list Vec4;
  IsDarkMode : bool
}.

Definition set_Buttons (f : gmap string ButtonState.t → gmap string ButtonState.t)
    (s : t) : t :=
  mk (Running s) (Fonts s) (ActiveMenu s) (CheckboxStates s) (f (Buttons s))
     (ColorPalette s) (IsDarkMode s).

Definition set_CheckboxStates
    (f : gmap string CheckboxState.t → gmap string CheckboxState.t) (s : t) : t :=
  mk (Running s) (Fonts s) (ActiveMenu s) (f (CheckboxStates s)) (Buttons s)
     (ColorPalette s) (IsDarkMode s).

Definition set_IsDarkMode (v : bool) (s : t) : t :=
  mk (Running s) (Fonts s) (ActiveMenu s) (CheckboxStates s) (Buttons s)
     (ColorPalette s) v.

(** What running an [OnClick] callable does: it may change any field of
    the engine, paint on the surface, and raise. *)
Record Outcome := mkOutcome {
  after : t;
  drawn : list sdl2.DrawCall;
  raised : option PyExn
}.

Definition Callable := t → Outcome.

(** What a method leaves on record: a draw call of its own, or an
    invocation of a callable together with what that callable painted. *)
Inductive Event :=
| Draw (d : sdl2.DrawCall)
| Invoke (painted : list sdl2.DrawCall).

(** The engine, the mouse state SDL last sampled, and the events so far,
    oldest first. *)
Record World := mkWorld {
  self : t;
  mouse : sdl2.MouseState;
  events : list Event
}.

(** A method body: runs from a world, ends in a world with a value or an
    exception. *)
Definition M (T : Type) : Type := World → World * Result T.

#[global] Instance M_ret : MRet M := λ T v w, (w, Ok v).

#[global] Instance M_bind : MBind M := λ T U f m w,
  match m w with
  | (w', Ok v) => f v w'
  | (w', Raise e) => (w', Raise e)
  end.

Definition raise {T} (e : PyExn) : M T := λ w, (w, Raise e).

Definition get_self : M t := λ w, (w, Ok (self w)).

Definition modify (f : t → t) : M unit :=
  λ w, (mkWorld (f (self w)) (mouse w) (events w), Ok tt).

Definition emit (d : sdl2.DrawCall) : M unit :=
  λ w, (mkWorld (self w) (mouse w) (events w ++ [Draw d]), Ok tt).

Definition SDL_GetMouseState : M sdl2.MouseState := λ w, (w, Ok (mouse w)).

(** [f()] for a callable [f]. *)
Definition call (f : Callable) : M unit := λ w,
  let o := f (self w) in
  (mkWorld (after o) (mouse w) (events w ++ [Invoke (drawn o)]),
   match raised o with
   | None => Ok tt
   | Some e => Raise e
   end).

(** [l[i]] and [d[k]], raising as Python does. *)
Definition list_getitem {T} (l : list T) (i : Z) : M T :=
  match py_index l i with
  | Some v => mret v
  | None => raise IndexError
  end.

Definition dict_getitem {V} (d : gmap string V) (k : string) : M V :=
  match d !! k with
  | Some v => mret v
  | None => raise (KeyError k)
  end.

(** [for x in l: body(x)]. *)
Fixpoint for_each {T} (l : list T) (body : T → M unit) : M unit :=
  match l with
  | [] => mret tt
  | x :: rest => body x ;; for_each rest body
  end.

Definition when (b : bool) (m : M unit) : M unit := if b then m else mret tt.

(** [__init__]: the engine as created, before any font is loaded. *)
Definition init : t :=
  mk true ∅ "Main" ∅ ∅
     [ mkVec4 0 (922 # 1000) (451 # 1000) 1;
       mkVec4 0 (780 # 1000) (376 # 1000) 1;
       mkVec4 0 (620 # 1000) (298 # 1000) 1;
       mkVec4 0 (459 # 1000) (224 # 1000) 1;
       mkVec4 0 (302 # 1000) (149 # 1000) 1 ]
     true.

Section Methods.
Context `{RenderBackend}.

Definition SwitchMode : M unit :=
  modify (λ s, set_IsDarkMode (negb (IsDarkMode s)) s).

Definition ColorPaletteMode (s : t) : list Vec4 :=
  if negb (IsDarkMode s) then reverse (ColorPalette s) else ColorPalette s.

Definition GetMouseState : M (Z * Z * Z) :=
  m ← SDL_GetMouseState;
  mret (sdl2.mouse_x m, sdl2.mouse_y m, sdl2.button_state m).

Definition IsClick (Button : MouseButton) : M bool :=
  '(_, _, button_state) ← GetMouseState;
  match Button with
  | Left =>
      mret (negb (Z.land button_state (sdl2.SDL_BUTTON sdl2.SDL_BUTTON_LEFT) =? 0))
  | Right =>
      mret (negb (Z.land button_state (sdl2.SDL_BUTTON sdl2.SDL_BUTTON_RIGHT) =? 0))
  | Middle =>
      mret (negb (Z.land button_state (sdl2.SDL_BUTTON sdl2.SDL_BUTTON_MIDDLE) =? 0))
  end.

Definition PointInsideRect (Point RectPos RectSize : Nat2) : bool :=
  ((X RectPos <=? X Point) && (X Point <=? X RectPos + X RectSize))
  && ((Y RectPos <=? Y Point) && (Y Point <=? Y RectPos + Y RectSize)).

Definition GetCursorPosition : M Nat2 :=
  m ← SDL_GetMouseState;
  mret (mkNat2 (sdl2.mouse_x m) (sdl2.mouse_y m)).

Definition RectIsHover (TRect : RectT) : M bool :=
  Point ← GetCursorPosition;
  mret (PointInsideRect Point (XY TRect) (WH TRect)).

Definition ColorOnHover (TRect : RectT) (Color1Idx Color2Idx : Z) : M Z :=
  hover ← RectIsHover TRect;
  mret (if (hover : bool) then Color1Idx else Color2Idx).

Definition Text (Str : string) (Pos : Nat2) (FontName : string)
    (ColorIdx : Z) (NoDraw : bool) : M RectT :=
  s ← get_self;
  Color ← list_getitem (ColorPaletteMode s) ColorIdx;
  if (size (Fonts s) =? 0)%nat then
    raise (RuntimeError "No font loaded. Use LoadFont() before rendering text.")
  else
    Font ← dict_getitem (Fonts s) FontName;
    match TTF_RenderUTF8_Blended Font Str Color with
    | None => raise (RuntimeError ("Failed to render text: " +:+ SDL_GetError))
    | Some TextSurface =>
        let TextRect :=
          sdl2.mkSDL_Rect (X Pos) (Y Pos)
            (sdl2.surf_w TextSurface) (sdl2.surf_h TextSurface) in
        let Rxy := mkNat2 (sdl2.x TextRect) (sdl2.y TextRect) in
        let Rwh := mkNat2 (sdl2.w TextRect) (sdl2.h TextRect) in
        let RRect := mkRect Rxy Rwh in
        when (negb NoDraw) (emit (sdl2.SDL_BlitSurface TextSurface TextRect)) ;;
        mret RRect
    end.

Definition TextWrapped (Str : string) (Pos : Nat2) (FontName : string)
    (ColorIdx : Z) : M unit :=
  let Strings := str_split newline Str in
  for_each (enumerate Strings) (λ item : Z * string,
    let '(Idx, Line) := item in
    if String.eqb Line "" then mret tt
    else Text Line (Nat2_add Pos (mkNat2 0 (Idx * 16))) FontName ColorIdx false ;;
         mret tt).

Definition Rect (Pos Size : Nat2) (ColorIdx : Z) : M unit :=
  s ← get_self;
  Color ← list_getitem (ColorPaletteMode s) ColorIdx;
  let RectSdl := sdl2.mkSDL_Rect (X Pos) (Y Pos) (X Size) (Y Size) in
  emit (sdl2.SDL_FillRect RectSdl Color).

Definition RectBorder (Pos Size : Nat2) (ColorIdx : Z) (Thickness : Z) : M unit :=
  Rect Pos (mkNat2 (X Size) Thickness) ColorIdx ;;
  Rect Pos (mkNat2 Thickness (Y Size)) ColorIdx ;;
  Rect (mkNat2 (X Pos) (Y Pos + Y Size - Thickness)) (mkNat2 (X Size) Thickness)
    ColorIdx ;;
  Rect (mkNat2 (X Pos + X Size - Thickness) (Y Pos)) (mkNat2 Thickness (Y Size))
    ColorIdx.

(** [self.Buttons[Label]] and [self.CheckboxStates[Label]], read. *)
Definition button_record (Label : string) : M ButtonState.t :=
  s ← get_self;
  dict_getitem (Buttons s) Label.

Definition checkbox_record (Label : string) : M CheckboxState.t :=
  s ← get_self;
  dict_getitem (CheckboxStates s) Label.

(** [self.CheckboxStates[Label][field] = v], as the update [f] of the
    record. *)
Definition checkbox_store (Label : string)
    (f : CheckboxState.t → CheckboxState.t) : M unit :=
  st ← checkbox_record Label;
  modify (set_CheckboxStates <[Label := f st]>).

(** [Button] (defaults: [ColorTextIdx = 2], [ColorHoverIdx = 1],
    [ColorNormalIdx = 3]); returns [(ButtonRect, clicked, hovered)]. *)
Definition Button (Label : string) (Pos : Nat2) (FontName : string)
    (OnClick : Callable) (ColorTextIdx ColorHoverIdx ColorNormalIdx : Z)
    : M (RectT * bool * bool) :=
  s ← get_self;
  match Buttons s !! Label with
  | None => modify (set_Buttons <[Label := ButtonState.mk true true true]>)
  | Some _ => mret tt
  end ;;
  TextRect ← Text Label Pos FontName ColorTextIdx true;
  let ButtonRect :=
    mkRect (Nat2_add (XY TextRect) (OfInt (-10)))
           (Nat2_add (WH TextRect) (OfInt 20)) in
  hovered ← RectIsHover ButtonRect;
  mouse_down ← IsClick Left;
  '(ColorIdx, clicked) ←
    (if (hovered : bool) then
       fresh_press ←
         (if (mouse_down : bool) then
            st ← button_record Label;
            mret (negb (ButtonState.prev_mouse_down st))
          else mret false);
       if (fresh_press : bool) then
         call OnClick ;;
         mret (ColorHoverIdx, true)
       else mret (ColorHoverIdx, false)
     else mret (ColorNormalIdx, false));
  Rect (XY ButtonRect) (WH ButtonRect) ColorIdx ;;
  Text Label Pos FontName ColorTextIdx false ;;
  st ← button_record Label;
  modify (set_Buttons <[Label := ButtonState.set_prev_mouse_down mouse_down st]>) ;;
  mret (ButtonRect, clicked, hovered).

(** [Checkbox] (defaults: [ColorBorderIdx = 0], [ColorInnerIdx = 1],
    [ColorInnerHoverIdx = 2], [ColorTextIdx = 0]); returns
    [(checked, hovered)]. *)
Definition Checkbox (Label : string) (Pos : Nat2) (FontName : string)
    (ColorBorderIdx ColorInnerIdx ColorInnerHoverIdx ColorTextIdx : Z)
    : M (bool * bool) :=
  let CheckboxSize := mkNat2 20 20 in
  let CheckboxRect := mkRect Pos CheckboxSize in
  s ← get_self;
  match CheckboxStates s !! Label with
  | None => modify (set_CheckboxStates <[Label := CheckboxState.mk false false]>)
  | Some _ => mret tt
  end ;;
  hovered ← RectIsHover CheckboxRect;
  (if (hovered : bool) then
     st ← checkbox_record Label;
     when (negb (CheckboxState.checked st))
       (Rect (Nat2_add Pos (mkNat2 4 4))
             (mkNat2 (X CheckboxSize - 8) (Y CheckboxSize - 8)) ColorInnerHoverIdx) ;;
     down ← IsClick Left;
     if (down : bool) then
       st ← checkbox_record Label;
       when (negb (CheckboxState.mouse_down st))
         (st ← checkbox_record Label;
          checkbox_store Label
            (CheckboxState.set_checked (negb (CheckboxState.checked st))) ;;
          checkbox_store Label (CheckboxState.set_mouse_down true))
     else checkbox_store Label (CheckboxState.set_mouse_down false)
   else checkbox_store Label (CheckboxState.set_mouse_down false)) ;;
  st ← checkbox_record Label;
  when (CheckboxState.checked st)
    (Rect (Nat2_add Pos (mkNat2 4 4))
          (mkNat2 (X CheckboxSize - 8) (Y CheckboxSize - 8)) ColorInnerIdx) ;;
  RectBorder Pos CheckboxSize ColorBorderIdx 2 ;;
  let LabelPos := Nat2_add Pos (mkNat2 (X CheckboxSize + 10) 0) in
  Text Label LabelPos FontName ColorTextIdx false ;;
  st ← checkbox_record Label;
  mret (CheckboxState.checked st, hovered).

End Methods.

Section Fonts.
Context `{RenderBackend} `{FontBackend}.



(** [IsClick] on the name of the button, as the callers write it. *)
Definition IsClick_named (Button : string) : M bool :=
  '(_, _, button_state) ← GetMouseState;
  if String.eqb Button "Left" then
    mret (negb (Z.land button_state (sdl2.SDL_BUTTON sdl2.SDL_BUTTON_LEFT) =? 0))
  else if String.eqb Button "Right" then
    mret (negb (Z.land button_state (sdl2.SDL_BUTTON sdl2.SDL_BUTTON_RIGHT) =? 0))
  else if String.eqb Button "Middle" then
    mret (negb (Z.land button_state (sdl2.SDL_BUTTON sdl2.SDL_BUTTON_MIDDLE) =? 0))
  else raise (ValueError "Button must be 'Left', 'Right', or 'Middle'").

End Fonts.

End UiManager.

(** * Vocabulary of the properties *)

Import UiManager.

(** A point on one of the four edges of the rectangle at [pos] of size
    [size], corners included. *)
Definition on_boundary (p pos size : Nat2) : Prop :=
  ((X p = X pos ∨ X p = X pos + X size) ∧ Y pos ≤ Y p ≤ Y pos + Y size)
  ∨ ((Y p = Y pos ∨ Y p = Y pos + Y size) ∧ X pos ≤ X p ≤ X pos + X size).

(** A point at least one unit beyond the rectangle on some side. *)
Definition outside_by_one (p pos size : Nat2) : Prop :=
  X p ≤ X pos - 1 ∨ X pos + X size + 1 ≤ X p
  ∨ Y p ≤ Y pos - 1 ∨ Y pos + Y size + 1 ≤ Y p.


(** The world after one more event. *)
Definition record_event (e : Event) (w : World) : World :=
  mkWorld (self w) (mouse w) (events w ++ [e]).

(** The world with another engine state, and with another mouse sample. *)
Definition with_self (s : t) (w : World) : World :=
  mkWorld s (mouse w) (events w).

Definition with_mouse (m : sdl2.MouseState) (w : World) : World :=
  mkWorld (self w) m (events w).

(** The left button as [IsClick("Left")] reads it, and the cursor as
    [GetCursorPosition] reads it. *)
Definition left_down (m : sdl2.MouseState) : bool :=
  negb (Z.land (sdl2.button_state m) 1 =? 0).

Definition cursor (m : sdl2.MouseState) : Nat2 :=
  mkNat2 (sdl2.mouse_x m) (sdl2.mouse_y m).

(** The surface [Text] obtains for a string, or the exception it raises
    on the way: the colour is looked up first, then the font. *)
Definition text_surface `{RenderBackend} (s : t) (Str FontName : string)
    (ColorIdx : Z) : Result sdl2.SDL_Surface :=
  match py_index (ColorPaletteMode s) ColorIdx with
  | None => Raise IndexError
  | Some Color =>
      if (size (Fonts s) =? 0)%nat then
        Raise (RuntimeError "No font loaded. Use LoadFont() before rendering text.")
      else
        match Fonts s !! FontName with
        | None => Raise (KeyError FontName)
        | Some Font =>
            match TTF_RenderUTF8_Blended Font Str Color with
            | None => Raise (RuntimeError ("Failed to render text: " +:+ SDL_GetError))
            | Some TextSurface => Ok TextSurface
            end
        end
  end.

(** The blit of a rendered surface at a position, and the rectangle
    [Text] returns for it. *)
Definition blit_at (Pos : Nat2) (surf : sdl2.SDL_Surface) : Event :=
  Draw (sdl2.SDL_BlitSurface surf
          (sdl2.mkSDL_Rect (X Pos) (Y Pos) (sdl2.surf_w surf) (sdl2.surf_h surf))).

Definition text_rect (Pos : Nat2) (surf : sdl2.SDL_Surface) : RectT :=
  mkRect (mkNat2 (X Pos) (Y Pos)) (mkNat2 (sdl2.surf_w surf) (sdl2.surf_h surf)).

(** The fill of a rectangle in a colour. *)
Definition fill_at (Pos Size : Nat2) (c : Vec4) : Event :=
  Draw (sdl2.SDL_FillRect (sdl2.mkSDL_Rect (X Pos) (Y Pos) (X Size) (Y Size)) c).

(** ** The phases of a [Button] call *)

(** The engine once [Button] has made sure that [Label] has a record. *)
Definition ensure_button (Label : string) (s : t) : t :=
  match Buttons s !! Label with
  | None => set_Buttons <[Label := ButtonState.mk true true true]> s
  | Some _ => s
  end.

(** The [prev_mouse_down] that a [Button] call on [Label] reads: the stored
    one, or the one of the record it creates. *)
Definition stored_prev (Label : string) (s : t) : bool :=
  match Buttons s !! Label with
  | Some st => ButtonState.prev_mouse_down st
  | None => true
  end.

(** The padded rectangle of a button whose label renders as [surf]. *)
Definition button_rect (Pos : Nat2) (surf : sdl2.SDL_Surface) : RectT :=
  mkRect (Nat2_add (XY (text_rect Pos surf)) (OfInt (-10)))
         (Nat2_add (WH (text_rect Pos surf)) (OfInt 20)).

(** The rendering and state update that end a [Button] call, once the
    background colour index and the click are decided. *)
Definition Button_finish `{RenderBackend} (Label : string) (Pos : Nat2)
    (FontName : string) (ColorTextIdx ColorIdx : Z) (ButtonRect : RectT)
    (mouse_down clicked hovered : bool) : M (RectT * bool * bool) :=
  UiManager.Rect (XY ButtonRect) (WH ButtonRect) ColorIdx ;;
  Text Label Pos FontName ColorTextIdx false ;;
  st ← button_record Label;
  modify (set_Buttons <[Label := ButtonState.set_prev_mouse_down mouse_down st]>) ;;
  mret (ButtonRect, clicked, hovered).

(** The number of callable invocations among some events. *)
Fixpoint invocations (evs : list Event) : nat :=
  match evs with
  | [] => 0%nat
  | Invoke _ :: rest => S (invocations rest)
  | Draw _ :: rest => invocations rest
  end.

(** The record a [Button] call on [Label] works on: the stored one, or
    the one it creates. *)
Definition stored_record (Label : string) (s : t) : ButtonState.t :=
  default (ButtonState.mk true true true) (Buttons s !! Label).

(** ** Frames *)

(** One frame of a button: what SDL samples of the mouse before the call,
    and the arguments of the call other than the label. *)
Record ButtonFrame := mkButtonFrame {
  bf_mouse : sdl2.MouseState;
  bf_Pos : Nat2;
  bf_FontName : string;
  bf_OnClick : Callable;
  bf_ColorTextIdx : Z;
  bf_ColorHoverIdx : Z;
  bf_ColorNormalIdx : Z
}.

Definition Button_frame `{RenderBackend} (Label : string) (f : ButtonFrame)
    : M (RectT * bool * bool) :=
  λ w, Button Label (bf_Pos f) (bf_FontName f) (bf_OnClick f) (bf_ColorTextIdx f)
         (bf_ColorHoverIdx f) (bf_ColorNormalIdx f) (with_mouse (bf_mouse f) w).

(** Successive [Button] calls on one label, one per frame; the results of
    the calls in order, and the world they leave. *)
Fixpoint Button_frames `{RenderBackend} (Label : string) (frames : list ButtonFrame)
    (w : World) : list (Result (RectT * bool * bool)) * World :=
  match frames with
  | [] => ([], w)
  | f :: rest =>
      let '(w1, r) := Button_frame Label f w in
      let '(rs, w2) := Button_frames Label rest w1 in
      (r :: rs, w2)
  end.

(** ** Concrete engines, used to exercise the properties *)

(** A backend with a fixed-pitch font: 8 by 16 units per character; a null
    font does not render. *)
Definition mono_backend : RenderBackend := {|
  TTF_RenderUTF8_Blended font str color :=
    if font =? 0 then None
    else Some (sdl2.mkSDL_Surface (8 * Z.of_nat (String.length str)) 16 []);
  SDL_GetError := "Passed a NULL pointer"
|}.

(** The engine after [LoadFont(..., "Medium", 16)]. *)
Definition ui_ready : t :=
  mk true {["Medium" := 1]} "Main" ∅ ∅ (ColorPalette init) true.

(** A world with nothing drawn yet. *)
Definition world_at (s : t) (mx my buttons : Z) : World :=
  mkWorld s (sdl2.mkMouseState mx my buttons) [].

(** [SwitchMode], handed to [Button] as its [OnClick]. *)
Definition SwitchMode_callable : Callable :=
  λ s, mkOutcome (set_IsDarkMode (negb (IsDarkMode s)) s) [] None.

(** The engine with a button "OK" whose last frame saw the left button up,
    and the one whose last frame saw it down. *)
Definition ui_released : t :=
  set_Buttons <["OK" := ButtonState.mk true true false]> ui_ready.

Definition ui_held : t :=
  set_Buttons <["OK" := ButtonState.mk true true true]> ui_ready.

(** A frame of the button "OK" drawn at (100, 100) in the font "Medium",
    with the cursor at ([mx], [my]) and the button mask [buttons].  The
    label measures 16 by 16, so the button covers (90, 90) to (126, 126). *)
Definition ok_frame (mx my buttons : Z) : ButtonFrame :=
  mkButtonFrame (sdl2.mkMouseState mx my buttons) (mkNat2 100 100) "Medium"
    SwitchMode_callable 2 1 3.

Definition ok_rect : RectT := mkRect (mkNat2 90 90) (mkNat2 36 36).

(** A callable that changes nothing and raises. *)
Definition failing_callable : Callable :=
  λ s, mkOutcome s [] (Some (RuntimeError "handler failed")).

(** A frame of the button "OK" with [failing_callable] as its callable, and
    a frame of a button "Quit" drawn at (100, 200). *)
Definition ok_failing_frame (mx my buttons : Z) : ButtonFrame :=
  mkButtonFrame (sdl2.mkMouseState mx my buttons) (mkNat2 100 100) "Medium"
    failing_callable 2 1 3.

Definition quit_frame (mx my buttons : Z) : ButtonFrame :=
  mkButtonFrame (sdl2.mkMouseState mx my buttons) (mkNat2 100 200) "Medium"
    SwitchMode_callable 2 1 3.

(** A call that returned a value. *)
Definition returned {T} (res : Result T) : Prop := ∃ v, res = Ok v.

(** ** The phases of a [Checkbox] call *)

(** The engine once [Checkbox] has made sure that [Label] has a record,
    and the record the call works on. *)
Definition ensure_checkbox (Label : string) (s : t) : t :=
  match CheckboxStates s !! Label with
  | None => set_CheckboxStates <[Label := CheckboxState.mk false false]> s
  | Some _ => s
  end.

Definition stored_checkbox (Label : string) (s : t) : CheckboxState.t :=
  default (CheckboxState.mk false false) (CheckboxStates s !! Label).

(** The toggle rule, as the specification words it: hovered, button down
    and [mouse_down] false flips [checked] and sets [mouse_down]; hovered
    with the button up, or not hovered, resets [mouse_down]; a held press
    changes nothing. *)
Definition toggle_rule (hovered down : bool) (st : CheckboxState.t) : CheckboxState.t :=
  if hovered && down && negb (CheckboxState.mouse_down st) then
    CheckboxState.mk (negb (CheckboxState.checked st)) true
  else if hovered && down then st
  else CheckboxState.mk (CheckboxState.checked st) false.

(** The inner square of the checkbox at [Pos]. *)
Definition inner_fill (Pos : Nat2) (c : Vec4) : Event :=
  fill_at (Nat2_add Pos (mkNat2 4 4)) (mkNat2 12 12) c.

(** The rendering that ends a [Checkbox] call, once the record is updated. *)
Definition Checkbox_finish `{RenderBackend} (Label : string) (Pos : Nat2)
    (FontName : string) (ColorBorderIdx ColorInnerIdx ColorTextIdx : Z)
    (hovered : bool) : M (bool * bool) :=
  st ← checkbox_record Label;
  when (CheckboxState.checked st)
    (UiManager.Rect (Nat2_add Pos (mkNat2 4 4)) (mkNat2 (20 - 8) (20 - 8))
       ColorInnerIdx) ;;
  RectBorder Pos (mkNat2 20 20) ColorBorderIdx 2 ;;
  Text Label (Nat2_add Pos (mkNat2 (20 + 10) 0)) FontName ColorTextIdx false ;;
  st ← checkbox_record Label;
  mret (CheckboxState.checked st, hovered).

(** One frame of a checkbox, and a run of frames, as for buttons. *)
Record CheckboxFrame := mkCheckboxFrame {
  cf_mouse : sdl2.MouseState;
  cf_Pos : Nat2;
  cf_FontName : string;
  cf_ColorBorderIdx : Z;
  cf_ColorInnerIdx : Z;
  cf_ColorInnerHoverIdx : Z;
  cf_ColorTextIdx : Z
}.

Definition Checkbox_frame `{RenderBackend} (Label : string) (f : CheckboxFrame)
    : M (bool * bool) :=
  λ w, Checkbox Label (cf_Pos f) (cf_FontName f) (cf_ColorBorderIdx f)
         (cf_ColorInnerIdx f) (cf_ColorInnerHoverIdx f) (cf_ColorTextIdx f)
         (with_mouse (cf_mouse f) w).

Fixpoint Checkbox_frames `{RenderBackend} (Label : string)
    (frames : list CheckboxFrame) (w : World) : list (Result (bool * bool)) * World :=
  match frames with
  | [] => ([], w)
  | f :: rest =>
      let '(w1, r) := Checkbox_frame Label f w in
      let '(rs, w2) := Checkbox_frames Label rest w1 in
      (r :: rs, w2)
  end.

(** A frame of the checkbox "X" drawn at (100, 160) in the font "Medium"
    with the default colours; the box covers (100, 160) to (120, 180). *)
Definition x_frame (mx my buttons : Z) : CheckboxFrame :=
  mkCheckboxFrame (sdl2.mkMouseState mx my buttons) (mkNat2 100 160) "Medium" 0 1 2 0.

(** ** The lines of [TextWrapped] *)




(** ** Painted pixels *)

(** The pixels [SDL_FillRect] paints for a rectangle: [w] columns from [x]
    and [h] rows from [y]. *)
Definition fills (r : sdl2.SDL_Rect) (px py : Z) : Prop :=
  sdl2.x r ≤ px < sdl2.x r + sdl2.w r ∧ sdl2.y r ≤ py < sdl2.y r + sdl2.h r.

(** A pixel painted by one of the fills among some events. *)
Definition painted (evs : list Event) (px py : Z) : Prop :=
  ∃ r c, Draw (sdl2.SDL_FillRect r c) ∈ evs ∧ fills r px py.

(** The four strips of [RectBorder]. *)
Definition border_strips (Pos Size : Nat2) (Thickness : Z) (c : Vec4) : list Event :=
  [ fill_at Pos (mkNat2 (X Size) Thickness) c;
    fill_at Pos (mkNat2 Thickness (Y Size)) c;
    fill_at (mkNat2 (X Pos) (Y Pos + Y Size - Thickness)) (mkNat2 (X Size) Thickness) c;
    fill_at (mkNat2 (X Pos + X Size - Thickness) (Y Pos)) (mkNat2 Thickness (Y Size)) c ].

(** The world after more events. *)
Definition record_events (evs : list Event) (w : World) : World :=
  mkWorld (self w) (mouse w) (events w ++ evs).

(** [sep.join(pieces)] for a one-character separator. *)
Fixpoint str_join (sep : ascii) (pieces : list string) : string :=
  match pieces with
  | [] => EmptyString
  | [piece] => piece
  | piece :: rest => piece +:+ String sep (str_join sep rest)
  end.


(** ** A frame of several widgets *)

(** The worlds of a short session on [mono_backend]: "OK" declared with
    the button up; then, with the button pressed over "OK", the button
    "Quit", the checkbox "X" and "OK" again. *)
Definition session_0 : World := world_at ui_ready 0 0 0.

Definition session_1 : World :=
  Eval vm_compute in
    (Button_frame (H := mono_backend) "OK" (ok_frame 100 100 0) session_0).1.

Definition session_2 : World :=
  Eval vm_compute in
    (Button_frame (H := mono_backend) "Quit" (quit_frame 100 100 1) session_1).1.

Definition session_3 : World :=
  Eval vm_compute in
    (Checkbox_frame (H := mono_backend) "X" (x_frame 100 100 1) session_2).1.

Definition session_4 : World :=
  Eval vm_compute in
    (Button_frame (H := mono_backend) "OK" (ok_frame 100 100 1) session_3).1.

(** * Properties *)

Section Geometry.

Lemma PointInsideRect_iff (p pos size : Nat2) :
  PointInsideRect p pos size = true
  ↔ X pos ≤ X p ≤ X pos + X size ∧ Y pos ≤ Y p ≤ Y pos + Y size.
Proof.
  unfold PointInsideRect.
  rewrite !andb_true_iff, !Z.leb_le. tauto.
Qed.

(** C6. The point-in-rectangle test is exactly the inclusive test on
    both axes; hence a point on the boundary of a rectangle (of
    non-negative size) is inside, and a point one unit or more beyond
    any side is not. *)
Theorem PointInsideRect_inclusive (p : Nat2) (r : RectT) :
  (PointInsideRect p (XY r) (WH r) = true
   ↔ X (XY r) ≤ X p ≤ X (XY r) + X (WH r)
     ∧ Y (XY r) ≤ Y p ≤ Y (XY r) + Y (WH r))
  ∧ (0 ≤ X (WH r) → 0 ≤ Y (WH r) → on_boundary p (XY r) (WH r) →
     PointInsideRect p (XY r) (WH r) = true)
  ∧ (outside_by_one p (XY r) (WH r) →
     PointInsideRect p (XY r) (WH r) = false).
Proof.
  split; [apply PointInsideRect_iff|]. split.
  - intros Hw Hh Hb. apply PointInsideRect_iff.
    unfold on_boundary in Hb. lia.
  - intros Ho. apply not_true_is_false. rewrite PointInsideRect_iff.
    unfold outside_by_one in Ho. lia.
Qed.

(** The corner of a 20 by 20 box is inside; one unit to its left is not. *)
Lemma PointInsideRect_inclusive_witness :
  PointInsideRect (mkNat2 120 120) (mkNat2 100 100) (mkNat2 20 20) = true
  ∧ PointInsideRect (mkNat2 99 110) (mkNat2 100 100) (mkNat2 20 20) = false.
Proof.
  split.
  - apply (PointInsideRect_inclusive (mkNat2 120 120)
             (mkRect (mkNat2 100 100) (mkNat2 20 20))); simpl;
      [lia | lia | unfold on_boundary; simpl; lia].
  - apply (PointInsideRect_inclusive (mkNat2 99 110)
             (mkRect (mkNat2 100 100) (mkNat2 20 20))).
    unfold outside_by_one; simpl; lia.
Defined.

End Geometry.

(** ** The monad and the two drawing primitives *)

Ltac unfold_monad :=
  unfold mbind, M_bind, mret, M_ret, raise, get_self, modify, emit, when,
    list_getitem, dict_getitem, SDL_GetMouseState in *.

Section Primitives.
Context `{RenderBackend}.

Lemma bind_eq {T U} (m : M T) (f : T → M U) (w : World) :
  (m ≫= f) w
  = match m w with
    | (w', Ok v) => f v w'
    | (w', Raise e) => (w', Raise e)
    end.
Proof. reflexivity. Qed.

Lemma Rect_eq (Pos Size : Nat2) (ColorIdx : Z) (w : World) :
  UiManager.Rect Pos Size ColorIdx w
  = match py_index (ColorPaletteMode (self w)) ColorIdx with
    | None => (w, Raise IndexError)
    | Some c => (record_event (fill_at Pos Size c) w, Ok tt)
    end.
Proof.
  unfold UiManager.Rect. unfold_monad. cbn.
  destruct (py_index _ _); reflexivity.
Qed.

Lemma Text_eq (Str : string) (Pos : Nat2) (FontName : string) (ColorIdx : Z)
    (NoDraw : bool) (w : World) :
  Text Str Pos FontName ColorIdx NoDraw w
  = match text_surface (self w) Str FontName ColorIdx with
    | Raise e => (w, Raise e)
    | Ok surf =>
        (if NoDraw then w else record_event (blit_at Pos surf) w,
         Ok (text_rect Pos surf))
    end.
Proof.
  unfold Text, text_surface. unfold_monad. cbn.
  destruct (py_index _ _); [|reflexivity]. cbn.
  destruct (size (Fonts (self w)) =? 0)%nat; [reflexivity|]. cbn.
  destruct (Fonts (self w) !! FontName); [|reflexivity]. cbn.
  destruct (TTF_RenderUTF8_Blended _ _ _); [|reflexivity].
  destruct NoDraw; destruct w; cbn; reflexivity.
Qed.

Lemma IsClick_Left_eq (w : World) :
  IsClick Left w = (w, Ok (left_down (mouse w))).
Proof. reflexivity. Qed.

Lemma button_record_eq (Label : string) (w : World) :
  button_record Label w
  = match Buttons (self w) !! Label with
    | Some st => (w, Ok st)
    | None => (w, Raise (KeyError Label))
    end.
Proof.
  unfold button_record. unfold_monad. cbn.
  destruct (Buttons (self w) !! Label); reflexivity.
Qed.

Lemma checkbox_record_eq (Label : string) (w : World) :
  checkbox_record Label w
  = match CheckboxStates (self w) !! Label with
    | Some st => (w, Ok st)
    | None => (w, Raise (KeyError Label))
    end.
Proof.
  unfold checkbox_record. unfold_monad. cbn.
  destruct (CheckboxStates (self w) !! Label); reflexivity.
Qed.

Lemma RectIsHover_eq (r : RectT) (w : World) :
  RectIsHover r w = (w, Ok (PointInsideRect (cursor (mouse w)) (XY r) (WH r))).
Proof. reflexivity. Qed.

End Primitives.

(** ** Palette resolution *)

Section Palette.
Context `{RenderBackend}.







End Palette.

(** ** Measuring with [Text] *)

Section Measuring.
Context `{RenderBackend}.

(** C7. [Text] with [NoDraw] returns what [Text] without it returns (the
    same rectangle, or the same exception) and leaves the world as it
    was: no draw call is issued. *)
Theorem Text_NoDraw_same_rect (Str : string) (Pos : Nat2) (FontName : string)
    (ColorIdx : Z) (w : World) :
  (Text Str Pos FontName ColorIdx true w).2
  = (Text Str Pos FontName ColorIdx false w).2
  ∧ (Text Str Pos FontName ColorIdx true w).1 = w.
Proof.
  rewrite !Text_eq.
  destruct (text_surface (self w) Str FontName ColorIdx); simpl; auto.
Qed.

End Measuring.

(** ** [Button], phase by phase *)

Section ButtonPhases.
Context `{RenderBackend}.

Lemma ensure_button_lookup (Label : string) (s : t) :
  ∃ st, Buttons (ensure_button Label s) !! Label = Some st
        ∧ ButtonState.prev_mouse_down st = stored_prev Label s.
Proof.
  unfold ensure_button, stored_prev.
  destruct (Buttons s !! Label) as [st|] eqn:Hl.
  - exists st. auto.
  - eexists. cbn. rewrite lookup_insert_eq. auto.
Qed.

Lemma ensure_button_text (Label : string) (s : t) (Str FontName : string) (idx : Z) :
  text_surface (ensure_button Label s) Str FontName idx
  = text_surface s Str FontName idx.
Proof. unfold ensure_button. destruct (Buttons s !! Label); reflexivity. Qed.

(** A [Button] call: the record is made sure of, the label is measured,
    and the click is decided; then either the callable runs and the
    button is painted as hovered, or it is painted at once. *)
Lemma Button_eq (Label : string) (Pos : Nat2) (FontName : string)
    (OnClick : Callable) (CT CH CN : Z) (w : World) :
  Button Label Pos FontName OnClick CT CH CN w
  = let w0 := with_self (ensure_button Label (self w)) w in
    match text_surface (self w) Label FontName CT with
    | Raise e => (w0, Raise e)
    | Ok surf =>
        let ButtonRect := button_rect Pos surf in
        let hovered :=
          PointInsideRect (cursor (mouse w)) (XY ButtonRect) (WH ButtonRect) in
        let mouse_down := left_down (mouse w) in
        if hovered && mouse_down && negb (stored_prev Label (self w)) then
          (call OnClick ;;
           Button_finish Label Pos FontName CT CH ButtonRect mouse_down true hovered) w0
        else
          Button_finish Label Pos FontName CT (if hovered then CH else CN)
            ButtonRect mouse_down false hovered w0
    end.
Proof.
  destruct (ensure_button_lookup Label (self w)) as (st0 & Hst0 & Hprev).
  unfold Button. rewrite bind_eq. cbn [get_self].
  rewrite bind_eq.
  assert (Hens :
    (match Buttons (self w) !! Label with
     | Some _ => mret ()
     | None => modify (set_Buttons <[Label:=ButtonState.mk true true true]>)
     end) w = (with_self (ensure_button Label (self w)) w, Ok tt)).
  { unfold ensure_button, with_self.
    destruct (Buttons (self w) !! Label); destruct w; reflexivity. }
  rewrite Hens. rewrite bind_eq, Text_eq.
  cbn [self with_self]. rewrite ensure_button_text.
  destruct (text_surface (self w) Label FontName CT) as [surf|e]; [|reflexivity].
  cbn zeta. rewrite bind_eq, RectIsHover_eq. rewrite bind_eq, IsClick_Left_eq.
  cbn [mouse with_self].
  set (ButtonRect := button_rect Pos surf).
  change (mkRect _ _) with ButtonRect.
  destruct (PointInsideRect (cursor (mouse w)) (XY ButtonRect) (WH ButtonRect));
    [|reflexivity].
  destruct (left_down (mouse w)); [|reflexivity].
  rewrite <- Hprev. rewrite !bind_eq, button_record_eq.
  cbn [self with_self]. rewrite Hst0.
  destruct (ButtonState.prev_mouse_down st0); cbn [andb negb]; [reflexivity|].
  unfold mbind, M_bind, mret, M_ret, call. cbn [self with_self mouse events].
  destruct (raised _); reflexivity.
Qed.

End ButtonPhases.

Section ButtonFinish.
Context `{RenderBackend}.

Lemma Button_finish_eq (Label : string) (Pos : Nat2) (FontName : string)
    (CT ColorIdx : Z) (ButtonRect : RectT) (mouse_down clicked hovered : bool)
    (w : World) :
  Button_finish Label Pos FontName CT ColorIdx ButtonRect mouse_down clicked hovered w
  = match py_index (ColorPaletteMode (self w)) ColorIdx with
    | None => (w, Raise IndexError)
    | Some c =>
        let w1 := record_event (fill_at (XY ButtonRect) (WH ButtonRect) c) w in
        match text_surface (self w) Label FontName CT with
        | Raise e => (w1, Raise e)
        | Ok surf =>
            let w2 := record_event (blit_at Pos surf) w1 in
            match Buttons (self w) !! Label with
            | None => (w2, Raise (KeyError Label))
            | Some st =>
                (with_self
                   (set_Buttons
                      <[Label := ButtonState.set_prev_mouse_down mouse_down st]>
                      (self w)) w2,
                 Ok (ButtonRect, clicked, hovered))
            end
        end
    end.
Proof.
  unfold Button_finish. rewrite bind_eq, Rect_eq.
  destruct (py_index _ _) as [c|]; [|reflexivity].
  rewrite bind_eq, Text_eq. cbn [self record_event].
  destruct (text_surface _ _ _ _) as [surf|e]; [|reflexivity].
  rewrite bind_eq, button_record_eq. cbn [self record_event].
  destruct (Buttons (self w) !! Label); reflexivity.
Qed.

Lemma invocations_app (l1 l2 : list Event) :
  invocations (l1 ++ l2) = (invocations l1 + invocations l2)%nat.
Proof.
  induction l1 as [|[d|p] l1 IH]; simpl; [reflexivity | exact IH | now rewrite IH].
Qed.

End ButtonFinish.

(** ** One [Button] call *)

(** Splits a hypothesis [Hrun : Button ... w = (w', res)] into the ways the
    call can end. *)
Ltac button_cases Hrun :=
  rewrite Button_eq in Hrun; cbv zeta in Hrun;
  destruct (text_surface _ _ _ _) as [?surf|?e] eqn:?Hmeasure in Hrun;
  [ destruct (_ && _ && negb _) eqn:?Hfire in Hrun;
    [ rewrite bind_eq in Hrun; unfold call in Hrun;
      cbn [self with_self mouse events] in Hrun;
      destruct (raised _) eqn:?Hraised in Hrun |];
    [ | rewrite Button_finish_eq in Hrun; cbv zeta in Hrun;
        cbn [self with_self mouse events record_event] in Hrun;
        destruct (py_index _ _) as [?c|] eqn:?Hcolor in Hrun;
        [ destruct (text_surface _ _ _ _) as [?surf|?e] eqn:?Hlabel in Hrun;
          [ destruct (Buttons _ !! _) as [?st|] eqn:?Hrecord in Hrun | ] | ] ..]
  | ];
  inversion Hrun; subst; clear Hrun.

Section ButtonCall.
Context `{RenderBackend}.

Lemma stored_prev_insert (Label : string) (st : ButtonState.t) (s : t) :
  stored_prev Label (set_Buttons <[Label := st]> s) = ButtonState.prev_mouse_down st.
Proof. unfold stored_prev. cbn. rewrite lookup_insert_eq. reflexivity. Qed.

(** A call that returns: [clicked] is the fresh press over the button, and
    the record ends with the sampled state of the left button. *)
Lemma Button_returns (Label : string) (Pos : Nat2) (FontName : string)
    (OnClick : Callable) (CT CH CN : Z) (w w' : World)
    (r : RectT) (clicked hovered : bool) :
  Button Label Pos FontName OnClick CT CH CN w = (w', Ok (r, clicked, hovered)) →
  clicked = hovered && left_down (mouse w) && negb (stored_prev Label (self w))
  ∧ hovered = PointInsideRect (cursor (mouse w)) (XY r) (WH r)
  ∧ (∃ st, Buttons (self w') !! Label = Some st)
  ∧ stored_prev Label (self w') = left_down (mouse w).
Proof.
  intros Hrun. button_cases Hrun.
  all: cbn [self with_self record_event].
  all: rewrite stored_prev_insert; cbn [Buttons set_Buttons]; rewrite lookup_insert_eq.
  all: unfold button_rect, text_rect in *; cbn [XY WH Nat2_add X Y] in *.
  all: rewrite Hfire; eauto.
Qed.

Lemma Button_frame_returns (Label : string) (f : ButtonFrame) (w w' : World)
    (r : RectT) (clicked hovered : bool) :
  Button_frame Label f w = (w', Ok (r, clicked, hovered)) →
  clicked = hovered && left_down (bf_mouse f) && negb (stored_prev Label (self w))
  ∧ stored_prev Label (self w') = left_down (bf_mouse f).
Proof.
  unfold Button_frame. intros Hrun.
  apply Button_returns in Hrun as (Hc & _ & _ & Hprev). auto.
Qed.

Lemma Button_frames_cons (Label : string) (f : ButtonFrame)
    (rest : list ButtonFrame) (w : World) :
  Button_frames Label (f :: rest) w
  = ((Button_frame Label f w).2
       :: (Button_frames Label rest (Button_frame Label f w).1).1,
     (Button_frames Label rest (Button_frame Label f w).1).2).
Proof.
  simpl. destruct (Button_frame Label f w) as [w1 r0]. simpl.
  destruct (Button_frames Label rest w1). reflexivity.
Qed.

(** In a run of frames, the click of a frame that returns is decided by
    its own sample and by the record as the run found it (first frame)
    or as the previous frame left it, when that frame returned. *)
Lemma Button_frames_clicked (Label : string) (frames : list ButtonFrame) :
  ∀ (w : World) (k : nat) (f : ButtonFrame) (r : RectT) (c h : bool),
    frames !! k = Some f →
    (Button_frames Label frames w).1 !! k = Some (Ok (r, c, h)) →
    (k = 0%nat →
     c = h && left_down (bf_mouse f) && negb (stored_prev Label (self w)))
    ∧ (∀ k' f' v, k = S k' → frames !! k' = Some f' →
         (Button_frames Label frames w).1 !! k' = Some (Ok v) →
         c = h && left_down (bf_mouse f) && negb (left_down (bf_mouse f'))).
Proof.
  induction frames as [|f0 rest IH]; intros w k f r c h Hf Hres; [discriminate|].
  rewrite Button_frames_cons in *. cbn [fst] in *.
  destruct (Button_frame Label f0 w) as [w1 r0] eqn:Hrun. cbn [fst snd] in *.
  destruct k as [|k1]; cbn in Hf, Hres.
  - injection Hf as ->. injection Hres as ->.
    apply Button_frame_returns in Hrun as [Hc _].
    split; [auto | intros; discriminate].
  - destruct (IH w1 k1 f r c h Hf Hres) as [IH0 IHS].
    split; [intros; discriminate|].
    intros k' f' v [= <-] Hf' Hres'.
    destruct k1 as [|k2]; cbn in Hf', Hres'.
    + injection Hf' as ->. injection Hres' as ->.
      destruct v as [[r' c'] h'].
      apply Button_frame_returns in Hrun as [_ Hprev].
      rewrite <- Hprev. auto.
    + eapply IHS; eauto.
Qed.

End ButtonCall.

(** ** The click edge of [Button] *)

Section ClickEdge.
Context `{RenderBackend}.

(** C1 (amended). A [Button] call that returns reports a click exactly
    when the button is hovered, the left button is down and the stored
    [prev_mouse_down] is false, and it ends by storing the sampled state
    of the left button.  Hence, for a label whose record exists with
    [prev_mouse_down] false, four successive calls that return hovered
    with the samples down, down, up, down report the clicks true, false,
    false, true. *)
Theorem Button_click_edge (Label : string) :
  (∀ (Pos : Nat2) (FontName : string) (OnClick : Callable) (CT CH CN : Z)
     (w w' : World) (r : RectT) (clicked hovered : bool),
     Button Label Pos FontName OnClick CT CH CN w = (w', Ok (r, clicked, hovered)) →
     (clicked = true
      ↔ hovered = true ∧ left_down (mouse w) = true
        ∧ stored_prev Label (self w) = false)
     ∧ stored_prev Label (self w') = left_down (mouse w))
  ∧ (∀ (f1 f2 f3 f4 : ButtonFrame) (w : World) (r1 r2 r3 r4 : RectT)
       (c1 c2 c3 c4 : bool),
       (∃ st, Buttons (self w) !! Label = Some st
              ∧ ButtonState.prev_mouse_down st = false) →
       left_down (bf_mouse f1) = true →
       left_down (bf_mouse f2) = true →
       left_down (bf_mouse f3) = false →
       left_down (bf_mouse f4) = true →
       (Button_frames Label [f1; f2; f3; f4] w).1
       = [Ok (r1, c1, true); Ok (r2, c2, true); Ok (r3, c3, true); Ok (r4, c4, true)] →
       [c1; c2; c3; c4] = [true; false; false; true]).
Proof.
  split.
  - intros Pos FontName OnClick CT CH CN w w' r clicked hovered Hrun.
    apply Button_returns in Hrun as (-> & _ & _ & Hprev).
    split; [|exact Hprev].
    rewrite !andb_true_iff, negb_true_iff. tauto.
  - intros f1 f2 f3 f4 w r1 r2 r3 r4 c1 c2 c3 c4 (st & Hst & Hprev) D1 D2 D3 D4 Hres.
    assert (H0 : stored_prev Label (self w) = false)
      by (unfold stored_prev; rewrite Hst; exact Hprev).
    pose proof (Button_frames_clicked Label [f1; f2; f3; f4] w) as Hk.
    rewrite Hres in Hk.
    destruct (Hk 0%nat f1 r1 c1 true eq_refl eq_refl) as [E1 _].
    destruct (Hk 1%nat f2 r2 c2 true eq_refl eq_refl) as [_ E2].
    destruct (Hk 2%nat f3 r3 c3 true eq_refl eq_refl) as [_ E3].
    destruct (Hk 3%nat f4 r4 c4 true eq_refl eq_refl) as [_ E4].
    rewrite (E1 eq_refl), (E2 0%nat f1 _ eq_refl eq_refl eq_refl),
      (E3 1%nat f2 _ eq_refl eq_refl eq_refl),
      (E4 2%nat f3 _ eq_refl eq_refl eq_refl).
    rewrite H0, D1, D2, D3, D4. reflexivity.
Qed.

End ClickEdge.

(** The button "OK", last seen with the left button up, pressed, held,
    released and pressed again under the cursor. *)
Lemma Button_click_edge_witness :
  (Button_frames (H := mono_backend) "OK"
     [ok_frame 100 100 1; ok_frame 100 100 1; ok_frame 100 100 0; ok_frame 100 100 1]
     (world_at ui_released 0 0 0)).1
  = [Ok (ok_rect, true, true); Ok (ok_rect, false, true);
     Ok (ok_rect, false, true); Ok (ok_rect, true, true)]
  ∧ [true; false; false; true] = [true; false; false; true].
Proof.
  assert (Hrun :
    (Button_frames (H := mono_backend) "OK"
       [ok_frame 100 100 1; ok_frame 100 100 1; ok_frame 100 100 0; ok_frame 100 100 1]
       (world_at ui_released 0 0 0)).1
    = [Ok (ok_rect, true, true); Ok (ok_rect, false, true);
       Ok (ok_rect, false, true); Ok (ok_rect, true, true)])
    by (vm_compute; reflexivity).
  split; [exact Hrun|].
  apply (proj2 (Button_click_edge (H := mono_backend) "OK")
           (ok_frame 100 100 1) (ok_frame 100 100 1) (ok_frame 100 100 0)
           (ok_frame 100 100 1) (world_at ui_released 0 0 0)
           ok_rect ok_rect ok_rect ok_rect);
    [ exists (ButtonState.mk true true false); split; reflexivity
    | reflexivity .. | exact Hrun ].
Defined.

(** C1, as stated, fails: the record of "OK" exists, the button stays
    hovered and the samples are down, down, up, down, yet the first press
    reports no click, because the record holds [prev_mouse_down] true. *)
Lemma Button_click_edge_held_record :
  Buttons ui_held !! "OK" = Some (ButtonState.mk true true true)
  ∧ (Button_frames (H := mono_backend) "OK"
       [ok_frame 100 100 1; ok_frame 100 100 1; ok_frame 100 100 0; ok_frame 100 100 1]
       (world_at ui_held 0 0 0)).1
    = [Ok (ok_rect, false, true); Ok (ok_rect, false, true);
       Ok (ok_rect, false, true); Ok (ok_rect, true, true)].
Proof. split; vm_compute; reflexivity. Qed.

(** ** The pre-pressed record of a new button *)

Section FirstFrame.
Context `{RenderBackend}.

Lemma stored_prev_unseen (Label : string) (s : t) :
  Buttons s !! Label = None → stored_prev Label s = true.
Proof. intros Hl. unfold stored_prev. rewrite Hl. reflexivity. Qed.

Lemma Button_frames_length (Label : string) (frames : list ButtonFrame) :
  ∀ w, length (Button_frames Label frames w).1 = length frames.
Proof.
  induction frames as [|f rest IH]; intros w; [reflexivity|].
  rewrite Button_frames_cons. cbn. rewrite IH. reflexivity.
Qed.

(** A call that finds [prev_mouse_down] true invokes nothing and reports
    no click. *)
Lemma Button_prev_down_quiet (Label : string) (Pos : Nat2) (FontName : string)
    (OnClick : Callable) (CT CH CN : Z) (w w' : World)
    (res : Result (RectT * bool * bool)) :
  stored_prev Label (self w) = true →
  Button Label Pos FontName OnClick CT CH CN w = (w', res) →
  invocations (events w') = invocations (events w)
  ∧ (∀ r clicked hovered, res = Ok (r, clicked, hovered) → clicked = false).
Proof.
  intros Hprev Hrun. button_cases Hrun.
  all: try (rewrite Hprev, andb_false_r in Hfire; discriminate).
  all: cbn [events with_self record_event self mouse].
  all: rewrite ?invocations_app; unfold fill_at, blit_at; cbn [invocations].
  all: split; [lia | intros ? ? ? [=]; subst; reflexivity].
Qed.

(** C2. A [Button] call on an unseen label behaves as on the engine where
    the label's record holds [prev_mouse_down] true: it invokes nothing and
    reports no click, whatever the mouse state.  In a run of calls that
    return, started on an unseen label, a click is reported only by a
    frame that samples the left button down while hovered and follows a
    frame that sampled it up; and down, up, down-while-hovered reports the
    click on the third frame. *)
Theorem Button_first_frame_guard (Label : string) :
  (∀ (Pos : Nat2) (FontName : string) (OnClick : Callable) (CT CH CN : Z) (w : World),
     Buttons (self w) !! Label = None →
     Button Label Pos FontName OnClick CT CH CN w
     = Button Label Pos FontName OnClick CT CH CN
         (with_self (set_Buttons <[Label := ButtonState.mk true true true]> (self w)) w)
     ∧ invocations (events (Button Label Pos FontName OnClick CT CH CN w).1)
       = invocations (events w)
     ∧ (∀ r clicked hovered,
          (Button Label Pos FontName OnClick CT CH CN w).2 = Ok (r, clicked, hovered) →
          clicked = false))
  ∧ (∀ (frames : list ButtonFrame) (w : World) (k : nat) (r : RectT) (hovered : bool),
       Buttons (self w) !! Label = None →
       Forall returned (Button_frames Label frames w).1 →
       (Button_frames Label frames w).1 !! k = Some (Ok (r, true, hovered)) →
       hovered = true
       ∧ ∃ k' f' f, k = S k'
           ∧ frames !! k' = Some f' ∧ left_down (bf_mouse f') = false
           ∧ frames !! k = Some f ∧ left_down (bf_mouse f) = true)
  ∧ (∀ (f1 f2 f3 : ButtonFrame) (w : World) (r1 r2 r3 : RectT)
       (c1 c2 c3 h1 h2 : bool),
       Buttons (self w) !! Label = None →
       left_down (bf_mouse f1) = true →
       left_down (bf_mouse f2) = false →
       left_down (bf_mouse f3) = true →
       (Button_frames Label [f1; f2; f3] w).1
       = [Ok (r1, c1, h1); Ok (r2, c2, h2); Ok (r3, c3, true)] →
       [c1; c2; c3] = [false; false; true]).
Proof.
  split; [|split].
  - intros Pos FontName OnClick CT CH CN w Hnew.
    split; [|].
    + rewrite !Button_eq. cbn [self with_self mouse].
      assert (Hens : ensure_button Label
                (set_Buttons <[Label := ButtonState.mk true true true]> (self w))
              = ensure_button Label (self w)).
      { unfold ensure_button. cbn. rewrite lookup_insert_eq, Hnew. reflexivity. }
      rewrite Hens, stored_prev_insert, (stored_prev_unseen _ _ Hnew).
      assert (Htxt : ∀ idx, text_surface
                (set_Buttons <[Label := ButtonState.mk true true true]> (self w))
                Label FontName idx = text_surface (self w) Label FontName idx)
        by reflexivity.
      rewrite Htxt. destruct w; reflexivity.
    + destruct (Button Label Pos FontName OnClick CT CH CN w) as [w' res] eqn:Hrun.
      apply Button_prev_down_quiet in Hrun as [Hinv Hclk];
        [|apply stored_prev_unseen, Hnew].
      split; [exact Hinv | exact Hclk].
  - intros frames w k r hovered Hnew Hall Hk.
    assert (Hlen : (k < length frames)%nat).
    { rewrite <- (Button_frames_length Label frames w). eapply lookup_lt_Some, Hk. }
    destruct (lookup_lt_is_Some_2 frames k Hlen) as [f Hf].
    destruct (Button_frames_clicked Label frames w k f r true hovered Hf Hk)
      as [H0 HS].
    destruct k as [|k'].
    + specialize (H0 eq_refl).
      rewrite (stored_prev_unseen _ _ Hnew), andb_false_r in H0. discriminate.
    + assert (Hlen' : (k' < length frames)%nat) by lia.
      destruct (lookup_lt_is_Some_2 frames k' Hlen') as [f' Hf'].
      assert (Hres' : ∃ v, (Button_frames Label frames w).1 !! k' = Some (Ok v)).
      { destruct (lookup_lt_is_Some_2 (Button_frames Label frames w).1 k') as [res Hres].
        - rewrite Button_frames_length. exact Hlen'.
        - rewrite Forall_lookup in Hall. destruct (Hall _ _ Hres) as [v ->]. eauto. }
      destruct Hres' as [v Hres'].
      specialize (HS k' f' v eq_refl Hf' Hres').
      symmetry in HS. rewrite !andb_true_iff, negb_true_iff in HS.
      destruct HS as [[Hh Hd] Hu].
      split; [exact Hh|]. exists k', f', f. auto.
  - intros f1 f2 f3 w r1 r2 r3 c1 c2 c3 h1 h2 Hnew D1 D2 D3 Hres.
    pose proof (Button_frames_clicked Label [f1; f2; f3] w) as Hk.
    rewrite Hres in Hk.
    destruct (Hk 0%nat f1 r1 c1 h1 eq_refl eq_refl) as [E1 _].
    destruct (Hk 1%nat f2 r2 c2 h2 eq_refl eq_refl) as [_ E2].
    destruct (Hk 2%nat f3 r3 c3 true eq_refl eq_refl) as [_ E3].
    rewrite (E1 eq_refl), (E2 0%nat f1 _ eq_refl eq_refl eq_refl),
      (E3 1%nat f2 _ eq_refl eq_refl eq_refl).
    rewrite (stored_prev_unseen _ _ Hnew), D1, D2, D3, !andb_false_r. reflexivity.
Qed.

End FirstFrame.

(** The label "OK" is new to [ui_ready]: held on the first frame, released,
    then pressed under the cursor. *)
Lemma Button_first_frame_guard_witness :
  Buttons (self (world_at ui_ready 0 0 0)) !! "OK" = None
  ∧ (Button_frames (H := mono_backend) "OK"
       [ok_frame 100 100 1; ok_frame 100 100 0; ok_frame 100 100 1]
       (world_at ui_ready 0 0 0)).1
    = [Ok (ok_rect, false, true); Ok (ok_rect, false, true); Ok (ok_rect, true, true)]
  ∧ [false; false; true] = [false; false; true].
Proof.
  assert (Hrun :
    (Button_frames (H := mono_backend) "OK"
       [ok_frame 100 100 1; ok_frame 100 100 0; ok_frame 100 100 1]
       (world_at ui_ready 0 0 0)).1
    = [Ok (ok_rect, false, true); Ok (ok_rect, false, true); Ok (ok_rect, true, true)])
    by (vm_compute; reflexivity).
  split; [reflexivity|]. split; [exact Hrun|].
  apply (proj2 (proj2 (Button_first_frame_guard (H := mono_backend) "OK"))
           (ok_frame 100 100 1) (ok_frame 100 100 0) (ok_frame 100 100 1)
           (world_at ui_ready 0 0 0) ok_rect ok_rect ok_rect false false true true true);
    [reflexivity .. | exact Hrun].
Defined.

(** ** The callable and the paint of one [Button] call *)

Section Callback.
Context `{RenderBackend}.


End Callback.


(** ** What a [Button] call leaves untouched *)

Section ButtonFrameProperty.
Context `{RenderBackend}.

Lemma ensure_button_eq (Label : string) (s : t) :
  ensure_button Label s = set_Buttons <[Label := stored_record Label s]> s.
Proof.
  unfold ensure_button, stored_record.
  destruct (Buttons s !! Label) as [st|] eqn:Hl; [|reflexivity].
  destruct s. unfold set_Buttons. cbn in *. rewrite insert_id; auto.
Qed.

Lemma ensure_button_record (Label : string) (s : t) :
  Buttons (ensure_button Label s) !! Label = Some (stored_record Label s).
Proof. rewrite ensure_button_eq. cbn. apply lookup_insert_eq. Qed.

Lemma set_Buttons_insert_twice (Label : string) (a b : ButtonState.t) (s : t) :
  set_Buttons <[Label := a]> (set_Buttons <[Label := b]> s)
  = set_Buttons <[Label := a]> s.
Proof. unfold set_Buttons. cbn. rewrite insert_insert_eq. reflexivity. Qed.

(** C10. A [Button] call that does not invoke [OnClick] leaves the engine
    as it was but for the record of its label: that record is the stored
    one, or the one created for an unseen label, with [prev_mouse_down]
    overwritten by the sampled state when the call returns.  The records
    of other labels, the checkbox records, the palette and the dark-mode
    flag are unchanged. *)
Theorem Button_frame_property (Label : string) (Pos : Nat2) (FontName : string)
    (OnClick : Callable) (CT CH CN : Z) (w w' : World)
    (res : Result (RectT * bool * bool)) :
  Button Label Pos FontName OnClick CT CH CN w = (w', res) →
  invocations (events w') = invocations (events w) →
  self w'
  = set_Buttons
      <[Label := match res with
                 | Ok _ => ButtonState.set_prev_mouse_down (left_down (mouse w))
                             (stored_record Label (self w))
                 | Raise _ => stored_record Label (self w)
                 end]> (self w)
  ∧ (∀ l, l ≠ Label → Buttons (self w') !! l = Buttons (self w) !! l)
  ∧ CheckboxStates (self w') = CheckboxStates (self w)
  ∧ ColorPalette (self w') = ColorPalette (self w)
  ∧ IsDarkMode (self w') = IsDarkMode (self w)
  ∧ Fonts (self w') = Fonts (self w).
Proof.
  intros Hrun Hinv.
  assert (Hself : self w'
    = set_Buttons
        <[Label := match res with
                   | Ok _ => ButtonState.set_prev_mouse_down (left_down (mouse w))
                               (stored_record Label (self w))
                   | Raise _ => stored_record Label (self w)
                   end]> (self w)).
  { button_cases Hrun.
    all: cbn [events with_self record_event self mouse] in *.
    all: rewrite ?invocations_app in Hinv; unfold fill_at, blit_at in Hinv;
      cbn [invocations] in Hinv; try lia.
    all: try (rewrite ensure_button_record in Hrecord; inversion Hrecord; subst).
    all: rewrite ensure_button_eq, ?set_Buttons_insert_twice; reflexivity. }
  rewrite Hself. cbn.
  split; [reflexivity|]. split; [|auto].
  intros l Hne. apply lookup_insert_ne. auto.
Qed.

End ButtonFrameProperty.

(** The new button "OK" with the left button up and the cursor away: the
    call creates the record and stores the sampled state in it. *)
Lemma Button_frame_property_witness :
  self (Button (H := mono_backend) "OK" (mkNat2 100 100) "Medium" SwitchMode_callable
          2 1 3 (world_at ui_ready 0 0 0)).1
  = set_Buttons <["OK" := ButtonState.mk true true false]> ui_ready.
Proof.
  destruct (Button_frame_property (H := mono_backend) "OK" (mkNat2 100 100) "Medium"
              SwitchMode_callable 2 1 3 (world_at ui_ready 0 0 0)
              (Button (H := mono_backend) "OK" (mkNat2 100 100) "Medium"
                 SwitchMode_callable 2 1 3 (world_at ui_ready 0 0 0)).1
              (Button (H := mono_backend) "OK" (mkNat2 100 100) "Medium"
                 SwitchMode_callable 2 1 3 (world_at ui_ready 0 0 0)).2)
    as [Hself _].
  - apply surjective_pairing.
  - vm_compute. reflexivity.
  - rewrite Hself. vm_compute. reflexivity.
Defined.

(** ** [Checkbox], phase by phase *)

Section CheckboxPhases.
Context `{RenderBackend}.

Lemma checkbox_store_eq (Label : string) (f : CheckboxState.t → CheckboxState.t)
    (w : World) :
  checkbox_store Label f w
  = match CheckboxStates (self w) !! Label with
    | Some st => (with_self (set_CheckboxStates <[Label := f st]> (self w)) w, Ok tt)
    | None => (w, Raise (KeyError Label))
    end.
Proof.
  unfold checkbox_store. rewrite bind_eq, checkbox_record_eq.
  destruct (CheckboxStates (self w) !! Label); reflexivity.
Qed.

Lemma ensure_checkbox_eq (Label : string) (s : t) :
  ensure_checkbox Label s = set_CheckboxStates <[Label := stored_checkbox Label s]> s.
Proof.
  unfold ensure_checkbox, stored_checkbox.
  destruct (CheckboxStates s !! Label) as [st|] eqn:Hl; [|reflexivity].
  destruct s. unfold set_CheckboxStates. cbn in *. rewrite insert_id; auto.
Qed.

Lemma ensure_checkbox_record (Label : string) (s : t) :
  CheckboxStates (ensure_checkbox Label s) !! Label = Some (stored_checkbox Label s).
Proof. rewrite ensure_checkbox_eq. cbn. apply lookup_insert_eq. Qed.

Lemma set_CheckboxStates_insert_twice (Label : string) (a b : CheckboxState.t) (s : t) :
  set_CheckboxStates <[Label := a]> (set_CheckboxStates <[Label := b]> s)
  = set_CheckboxStates <[Label := a]> s.
Proof. unfold set_CheckboxStates. cbn. rewrite insert_insert_eq. reflexivity. Qed.

Lemma set_CheckboxStates_insert_id (Label : string) (st : CheckboxState.t) (s : t) :
  CheckboxStates s !! Label = Some st →
  set_CheckboxStates <[Label := st]> s = s.
Proof.
  intros Hl. destruct s. unfold set_CheckboxStates. cbn in *. rewrite insert_id; auto.
Qed.

Lemma CheckboxStates_insert_lookup (Label : string) (st : CheckboxState.t) (s : t) :
  CheckboxStates (set_CheckboxStates <[Label := st]> s) !! Label = Some st.
Proof. cbn. apply lookup_insert_eq. Qed.

End CheckboxPhases.

(** Runs the method calls at the head of the goal, one step at a time. *)
Ltac msimpl :=
  unfold with_self, record_event;
  cbn [self mouse events when get_self XY WH X Y andb negb mret M_ret
       CheckboxState.set_mouse_down CheckboxState.set_checked
       CheckboxState.checked CheckboxState.mouse_down];
  rewrite ?CheckboxStates_insert_lookup, ?set_CheckboxStates_insert_twice.

Ltac mstep :=
  first
  [ rewrite bind_eq
  | rewrite Rect_eq | rewrite Text_eq | rewrite IsClick_Left_eq | rewrite RectIsHover_eq
  | rewrite checkbox_record_eq | rewrite checkbox_store_eq | rewrite button_record_eq ];
  msimpl.

Ltac mrun := msimpl; repeat mstep.

Section CheckboxCall.
Context `{RenderBackend}.

(** A [Checkbox] call: the record is made sure of, the hover tint is
    painted over an unchecked hovered box, the record is updated by the
    toggle rule, and the box is painted. *)
Lemma Checkbox_eq (Label : string) (Pos : Nat2) (FontName : string)
    (CB CI CIH CT : Z) (w : World) :
  Checkbox Label Pos FontName CB CI CIH CT w
  = let st0 := stored_checkbox Label (self w) in
    let w0 := with_self (ensure_checkbox Label (self w)) w in
    let hovered := PointInsideRect (cursor (mouse w)) Pos (mkNat2 20 20) in
    match when (hovered && negb (CheckboxState.checked st0))
            (UiManager.Rect (Nat2_add Pos (mkNat2 4 4)) (mkNat2 12 12) CIH) w0 with
    | (w1, Raise e) => (w1, Raise e)
    | (w1, Ok _) =>
        Checkbox_finish Label Pos FontName CB CI CT hovered
          (with_self
             (set_CheckboxStates
                <[Label := toggle_rule hovered (left_down (mouse w)) st0]> (self w))
             w1)
    end.
Proof.
  unfold Checkbox. cbv zeta. rewrite bind_eq. cbn [get_self]. rewrite bind_eq.
  assert (Hens :
    (match CheckboxStates (self w) !! Label with
     | Some _ => mret ()
     | None => modify (set_CheckboxStates <[Label:=CheckboxState.mk false false]>)
     end) w = (with_self (ensure_checkbox Label (self w)) w, Ok tt)).
  { unfold ensure_checkbox, with_self.
    destruct (CheckboxStates (self w) !! Label); destruct w; reflexivity. }
  rewrite Hens. clear Hens.
  rewrite ensure_checkbox_eq in *.
  set (st0 := stored_checkbox Label (self w)) in *.
  clearbody st0. destruct st0 as [chk md].
  mrun. change (20 - 8) with 12.
  unfold toggle_rule, Checkbox_finish.
  destruct (PointInsideRect (cursor (mouse w)) Pos (mkNat2 20 20)); mrun;
    [|reflexivity].
  destruct chk; mrun.
  - destruct (left_down (mouse w)); mrun; [|reflexivity].
    destruct md; mrun; reflexivity.
  - destruct (py_index _ _); [|reflexivity]. mrun.
    destruct (left_down (mouse w)); mrun; [|reflexivity].
    destruct md; mrun; reflexivity.
Qed.

Lemma Checkbox_finish_spec (Label : string) (Pos : Nat2) (FontName : string)
    (CB CI CT : Z) (hovered : bool) (w : World) :
  self (Checkbox_finish Label Pos FontName CB CI CT hovered w).1 = self w
  ∧ (∀ c h, (Checkbox_finish Label Pos FontName CB CI CT hovered w).2 = Ok (c, h) →
       h = hovered
       ∧ CheckboxStates (self w) !! Label = Some (stored_checkbox Label (self w))
       ∧ c = CheckboxState.checked (stored_checkbox Label (self w))).
Proof.
  unfold Checkbox_finish, RectBorder, stored_checkbox. mrun.
  destruct (CheckboxStates (self w) !! Label) as [st|] eqn:Hst; mrun;
    [|split; [reflexivity | intros ? ? [=]]].
  destruct (CheckboxState.checked st) eqn:Hchk; mrun.
  all: repeat (destruct (py_index _ _); mrun; [|split; [reflexivity | intros ? ? [=]]]).
  all: destruct (text_surface _ _ _ _); mrun; [|split; [reflexivity | intros ? ? [=]]].
  all: rewrite Hst; mrun.
  all: split; [reflexivity | intros ? ? [= <- <-]; auto].
Qed.

Lemma stored_checkbox_insert (Label : string) (st : CheckboxState.t) (s : t) :
  stored_checkbox Label (set_CheckboxStates <[Label := st]> s) = st.
Proof. unfold stored_checkbox. rewrite CheckboxStates_insert_lookup. reflexivity. Qed.

(** A call that returns: the record has moved by the toggle rule, nothing
    else in the engine has, and [checked] is read from the new record. *)
Lemma Checkbox_returns (Label : string) (Pos : Nat2) (FontName : string)
    (CB CI CIH CT : Z) (w w' : World) (c h : bool) :
  Checkbox Label Pos FontName CB CI CIH CT w = (w', Ok (c, h)) →
  h = PointInsideRect (cursor (mouse w)) Pos (mkNat2 20 20)
  ∧ self w'
    = set_CheckboxStates
        <[Label := toggle_rule h (left_down (mouse w)) (stored_checkbox Label (self w))]>
        (self w)
  ∧ c = CheckboxState.checked
          (toggle_rule h (left_down (mouse w)) (stored_checkbox Label (self w))).
Proof.
  rewrite Checkbox_eq. cbv zeta.
  destruct (when _ _ _) as [w1 [u|e]]; [|discriminate].
  intros Hrun.
  match type of Hrun with
  | Checkbox_finish ?L ?P ?F ?cb ?ci ?ct ?hov ?W = _ =>
      destruct (Checkbox_finish_spec L P F cb ci ct hov W) as [Hself Hres]
  end.
  rewrite Hrun in Hself, Hres. cbn [fst snd self with_self] in Hself, Hres.
  destruct (Hres c h eq_refl) as (-> & _ & ->).
  rewrite stored_checkbox_insert. auto.
Qed.

Lemma Checkbox_frame_returns (Label : string) (f : CheckboxFrame) (w w' : World)
    (c h : bool) :
  Checkbox_frame Label f w = (w', Ok (c, h)) →
  stored_checkbox Label (self w')
  = toggle_rule h (left_down (cf_mouse f)) (stored_checkbox Label (self w))
  ∧ c = CheckboxState.checked (stored_checkbox Label (self w')).
Proof.
  unfold Checkbox_frame. intros Hrun.
  apply Checkbox_returns in Hrun as (_ & Hself & ->).
  cbn [self mouse with_mouse] in Hself. rewrite Hself, stored_checkbox_insert. auto.
Qed.

Lemma Checkbox_frames_cons (Label : string) (f : CheckboxFrame)
    (rest : list CheckboxFrame) (w : World) :
  Checkbox_frames Label (f :: rest) w
  = ((Checkbox_frame Label f w).2
       :: (Checkbox_frames Label rest (Checkbox_frame Label f w).1).1,
     (Checkbox_frames Label rest (Checkbox_frame Label f w).1).2).
Proof.
  simpl. destruct (Checkbox_frame Label f w) as [w1 r0]. simpl.
  destruct (Checkbox_frames Label rest w1). reflexivity.
Qed.

(** C3. A [Checkbox] call that returns has moved the record of its label by
    the toggle rule (hovered, button down and [mouse_down] false: [checked]
    flips and [mouse_down] is set; hovered with the button up, or not
    hovered: [mouse_down] is reset) and returns the new [checked].  From a
    record with [checked] and [mouse_down] false, as created for a new
    label, the frames hover+down, hover+down, hover+up report checked
    after the first and no further toggle; and a press held from outside
    the box toggles it on the first hovered frame. *)
Theorem Checkbox_toggle (Label : string) :
  (∀ (Pos : Nat2) (FontName : string) (CB CI CIH CT : Z) (w w' : World)
     (checked hovered : bool),
     Checkbox Label Pos FontName CB CI CIH CT w = (w', Ok (checked, hovered)) →
     hovered = PointInsideRect (cursor (mouse w)) Pos (mkNat2 20 20)
     ∧ stored_checkbox Label (self w')
       = toggle_rule hovered (left_down (mouse w)) (stored_checkbox Label (self w))
     ∧ checked = CheckboxState.checked (stored_checkbox Label (self w')))
  ∧ (∀ (f1 f2 f3 : CheckboxFrame) (w : World) (c1 c2 c3 : bool),
       stored_checkbox Label (self w) = CheckboxState.mk false false →
       left_down (cf_mouse f1) = true →
       left_down (cf_mouse f2) = true →
       left_down (cf_mouse f3) = false →
       (Checkbox_frames Label [f1; f2; f3] w).1
       = [Ok (c1, true); Ok (c2, true); Ok (c3, true)] →
       [c1; c2; c3] = [true; true; true])
  ∧ (∀ (f1 f2 : CheckboxFrame) (w : World) (c1 c2 : bool),
       left_down (cf_mouse f1) = true →
       left_down (cf_mouse f2) = true →
       (Checkbox_frames Label [f1; f2] w).1 = [Ok (c1, false); Ok (c2, true)] →
       c1 = CheckboxState.checked (stored_checkbox Label (self w))
       ∧ c2 = negb c1).
Proof.
  split; [|split].
  - intros Pos FontName CB CI CIH CT w w' checked hovered Hrun.
    apply Checkbox_returns in Hrun as (Hh & Hself & ->).
    rewrite Hself, stored_checkbox_insert. auto.
  - intros f1 f2 f3 w c1 c2 c3 Hst D1 D2 D3 Hres.
    rewrite !Checkbox_frames_cons in Hres. cbn [fst snd] in Hres.
    destruct (Checkbox_frame Label f1 w) as [w1 r1] eqn:R1. cbn [fst snd] in Hres.
    destruct (Checkbox_frame Label f2 w1) as [w2 r2] eqn:R2. cbn [fst snd] in Hres.
    destruct (Checkbox_frame Label f3 w2) as [w3 r3] eqn:R3. cbn [fst snd] in Hres.
    injection Hres as -> -> ->.
    apply Checkbox_frame_returns in R1 as [S1 ->].
    apply Checkbox_frame_returns in R2 as [S2 ->].
    apply Checkbox_frame_returns in R3 as [S3 ->].
    rewrite S3, S2, S1, Hst, D1, D2, D3. reflexivity.
  - intros f1 f2 w c1 c2 D1 D2 Hres.
    rewrite !Checkbox_frames_cons in Hres. cbn [fst snd] in Hres.
    destruct (Checkbox_frame Label f1 w) as [w1 r1] eqn:R1. cbn [fst snd] in Hres.
    destruct (Checkbox_frame Label f2 w1) as [w2 r2] eqn:R2. cbn [fst snd] in Hres.
    injection Hres as -> ->.
    apply Checkbox_frame_returns in R1 as [S1 ->].
    apply Checkbox_frame_returns in R2 as [S2 ->].
    rewrite S2, S1, D1, D2.
    destruct (stored_checkbox Label (self w)) as [chk md]. auto.
Qed.

End CheckboxCall.

(** The new checkbox "X": pressed inside the box, held, released. *)
Lemma Checkbox_toggle_witness :
  stored_checkbox "X" (self (world_at ui_ready 0 0 0)) = CheckboxState.mk false false
  ∧ (Checkbox_frames (H := mono_backend) "X"
       [x_frame 110 170 1; x_frame 110 170 1; x_frame 110 170 0]
       (world_at ui_ready 0 0 0)).1
    = [Ok (true, true); Ok (true, true); Ok (true, true)]
  ∧ [true; true; true] = [true; true; true].
Proof.
  assert (Hrun :
    (Checkbox_frames (H := mono_backend) "X"
       [x_frame 110 170 1; x_frame 110 170 1; x_frame 110 170 0]
       (world_at ui_ready 0 0 0)).1
    = [Ok (true, true); Ok (true, true); Ok (true, true)])
    by (vm_compute; reflexivity).
  split; [reflexivity|]. split; [exact Hrun|].
  apply (proj1 (proj2 (Checkbox_toggle (H := mono_backend) "X"))
           (x_frame 110 170 1) (x_frame 110 170 1) (x_frame 110 170 0)
           (world_at ui_ready 0 0 0) true true true);
    [reflexivity .. | exact Hrun].
Defined.

(** ** The lines of [TextWrapped] *)

Section WrappedLines.
Context `{RenderBackend}.




End WrappedLines.


(** ** Palette indices that fail *)

Section PaletteErrors.
Context `{RenderBackend}.







End PaletteErrors.



(** * Further properties *)

(** ** More on geometry *)

Section MoreGeometry.

Lemma Nat2_eq (a b : Nat2) : X a = X b → Y a = Y b → a = b.
Proof. destruct a, b. cbn. intros -> ->. reflexivity. Qed.

(** X1. Adding [Nat2] values is commutative and associative, and adding an
    integer is adding the [Nat2] that holds it twice; adding 0 changes
    nothing. *)
Theorem Nat2_add_algebra (a b c : Nat2) (k : Z) :
  Nat2_add a b = Nat2_add b a
  ∧ Nat2_add (Nat2_add a b) c = Nat2_add a (Nat2_add b c)
  ∧ Nat2_add a (OfInt k) = Nat2_add a (mkNat2 k k)
  ∧ Nat2_add a (OfInt 0) = a
  ∧ Nat2_add (Nat2_add a (OfInt k)) (OfInt (- k)) = a.
Proof.
  repeat split; apply Nat2_eq; cbn; lia.
Qed.

(** X2. A rectangle with a negative width or height contains no point, and
    a rectangle of size zero contains its corner alone. *)
Theorem PointInsideRect_degenerate (p pos size : Nat2) :
  (X size < 0 ∨ Y size < 0 → PointInsideRect p pos size = false)
  ∧ (X size = 0 → Y size = 0 → (PointInsideRect p pos size = true ↔ p = pos)).
Proof.
  split.
  - intros Hneg. apply not_true_is_false. rewrite PointInsideRect_iff. lia.
  - intros Hx Hy. rewrite PointInsideRect_iff. split.
    + intros ?. apply Nat2_eq; lia.
    + intros ->. lia.
Qed.

Lemma PointInsideRect_degenerate_witness :
  PointInsideRect (mkNat2 5 5) (mkNat2 0 0) (mkNat2 (-1) 10) = false
  ∧ PointInsideRect (mkNat2 3 4) (mkNat2 3 4) (mkNat2 0 0) = true.
Proof.
  split.
  - apply (PointInsideRect_degenerate (mkNat2 5 5) (mkNat2 0 0) (mkNat2 (-1) 10)).
    left. simpl. lia.
  - apply (PointInsideRect_degenerate (mkNat2 3 4) (mkNat2 3 4) (mkNat2 0 0));
      reflexivity.
Defined.

End MoreGeometry.

(** ** Palettes *)

Section MorePalette.

Lemma py_index_reverse {T} (l : list T) (i : Z) :
  py_index (reverse l) i = py_index l (- 1 - i).
Proof.
  unfold py_index. rewrite length_reverse.
  set (n := Z.of_nat (length l)).
  destruct (0 <=? i) eqn:Hi.
  - apply Z.leb_le in Hi.
    rewrite (proj2 (Z.leb_gt 0 (-1 - i))) by lia.
    destruct (- n <=? -1 - i) eqn:Hn.
    + apply Z.leb_le in Hn. rewrite reverse_lookup by lia. f_equal. lia.
    + apply Z.leb_gt in Hn. apply lookup_ge_None_2. rewrite length_reverse. lia.
  - apply Z.leb_gt in Hi.
    rewrite (proj2 (Z.leb_le 0 (-1 - i))) by lia.
    destruct (- n <=? i) eqn:Hn.
    + apply Z.leb_le in Hn. rewrite reverse_lookup by lia. f_equal. lia.
    + apply Z.leb_gt in Hn. symmetry. apply lookup_ge_None_2. lia.
Qed.

(** X3. [SwitchMode] mirrors the palette: after it, index [idx] resolves
    what index [-1 - idx] resolved before, for every index, failing ones
    included; nothing else in the world changes, and switching twice
    restores the engine. *)
Theorem SwitchMode_mirrors (w : World) (idx : Z) :
  (SwitchMode w).2 = Ok tt
  ∧ (SwitchMode w).1 = with_self (set_IsDarkMode (negb (IsDarkMode (self w))) (self w)) w
  ∧ py_index (ColorPaletteMode (self (SwitchMode w).1)) idx
    = py_index (ColorPaletteMode (self w)) (- 1 - idx)
  ∧ (SwitchMode ;; SwitchMode) w = (w, Ok tt).
Proof.
  split; [reflexivity|]. split; [reflexivity|]. split.
  - cbn. unfold ColorPaletteMode. cbn.
    destruct (IsDarkMode (self w)); cbn.
    + apply py_index_reverse.
    + rewrite <- (reverse_involutive (ColorPalette (self w))) at 1.
      rewrite py_index_reverse. f_equal. 
  - unfold SwitchMode, mbind, M_bind, modify. cbn.
    destruct w as [s m e]. destruct s. cbn. rewrite negb_involutive. reflexivity.
Qed.

End MorePalette.

(** ** [Text]: failures and effects *)

Section MoreText.
Context `{RenderBackend}.



End MoreText.




(** ** [RectBorder] *)

Section Border.







End Border.

(** ** More on [Button] *)

Section MoreButton.
Context `{RenderBackend}.

Lemma Button_mouse (Label : string) (Pos : Nat2) (FontName : string)
    (OnClick : Callable) (CT CH CN : Z) (w w' : World)
    (res : Result (RectT * bool * bool)) :
  Button Label Pos FontName OnClick CT CH CN w = (w', res) → mouse w' = mouse w.
Proof. intros Hrun. button_cases Hrun; reflexivity. Qed.

(** A call that invokes nothing touches the record of its label alone. *)
Lemma Button_quiet_self (Label : string) (Pos : Nat2) (FontName : string)
    (OnClick : Callable) (CT CH CN : Z) (w w' : World)
    (res : Result (RectT * bool * bool)) :
  Button Label Pos FontName OnClick CT CH CN w = (w', res) →
  invocations (events w') = invocations (events w) →
  ∃ st, self w' = set_Buttons <[Label := st]> (self w).
Proof.
  intros Hrun Hinv. button_cases Hrun.
  all: cbn [events with_self record_event self mouse] in *.
  all: rewrite ?invocations_app in Hinv; unfold fill_at, blit_at in Hinv;
    cbn [invocations] in Hinv; try lia.
  all: rewrite ensure_button_eq, ?set_Buttons_insert_twice; eauto.
Qed.



(** X11. When measuring the label fails, [Button] raises the same
    exception before any event; the record of a new label has then been
    created all the same, and nothing else has changed. *)
Theorem Button_measure_failure (Label : string) (Pos : Nat2) (FontName : string)
    (OnClick : Callable) (CT CH CN : Z) (w : World) (e : PyExn) :
  (Text Label Pos FontName CT true w).2 = Raise e →
  Button Label Pos FontName OnClick CT CH CN w
  = (with_self (set_Buttons <[Label := stored_record Label (self w)]> (self w)) w,
     Raise e).
Proof.
  rewrite Text_eq, Button_eq, ensure_button_eq. cbv zeta.
  destruct (text_surface (self w) Label FontName CT); cbn [snd]; [discriminate|].
  intros [= ->]. reflexivity.
Qed.

(** X12. When the click fires and the callable raises, [Button] raises the
    same exception right after the invocation: nothing is painted and the
    engine is left as the callable left it, [prev_mouse_down] included. *)
Theorem Button_callback_raises (Label : string) (Pos : Nat2) (FontName : string)
    (OnClick : Callable) (CT CH CN : Z) (w : World) (surf : sdl2.SDL_Surface)
    (e : PyExn) :
  text_surface (self w) Label FontName CT = Ok surf →
  PointInsideRect (cursor (mouse w)) (XY (button_rect Pos surf))
    (WH (button_rect Pos surf)) = true →
  left_down (mouse w) = true →
  stored_prev Label (self w) = false →
  raised (OnClick (self w)) = Some e →
  Button Label Pos FontName OnClick CT CH CN w
  = (mkWorld (after (OnClick (self w))) (mouse w)
       (events w ++ [Invoke (drawn (OnClick (self w)))]),
     Raise e).
Proof.
  intros Hsurf Hh Hd Hp Hr.
  assert (Hens : ensure_button Label (self w) = self w).
  { unfold ensure_button, stored_prev in *.
    destruct (Buttons (self w) !! Label); [reflexivity | discriminate]. }
  rewrite Button_eq, Hsurf. cbv zeta. rewrite Hh, Hd, Hp, Hens. cbn [andb negb].
  rewrite bind_eq. unfold call. cbn [self with_self mouse events].
  rewrite Hr. reflexivity.
Qed.

(** X13. Two [Button] calls on the same label within one frame: when both
    return, the second never reports a click. *)
Theorem Button_duplicate_label (Label : string) (Pos1 Pos2 : Nat2)
    (Font1 Font2 : string) (OnClick1 OnClick2 : Callable)
    (CT1 CH1 CN1 CT2 CH2 CN2 : Z) (w w1 w2 : World) (r1 r2 : RectT)
    (c1 c2 h1 h2 : bool) :
  Button Label Pos1 Font1 OnClick1 CT1 CH1 CN1 w = (w1, Ok (r1, c1, h1)) →
  Button Label Pos2 Font2 OnClick2 CT2 CH2 CN2 w1 = (w2, Ok (r2, c2, h2)) →
  c2 = false.
Proof.
  intros Hrun1 Hrun2.
  pose proof (Button_mouse _ _ _ _ _ _ _ _ _ _ Hrun1) as Hm.
  apply Button_returns in Hrun1 as (_ & _ & _ & Hprev).
  apply Button_returns in Hrun2 as (-> & _).
  rewrite Hprev, Hm. destruct h2, (left_down (mouse w)); reflexivity.
Qed.

Lemma Button_frames_nth (Label : string) (frames : list ButtonFrame) :
  ∀ (w : World) (k : nat) (f : ButtonFrame),
    frames !! k = Some f →
    ∃ wk, (Button_frames Label frames w).1 !! k = Some (Button_frame Label f wk).2.
Proof.
  induction frames as [|f0 rest IH]; intros w k f Hf; [discriminate|].
  rewrite Button_frames_cons. cbn [fst].
  destruct k as [|k]; cbn in Hf |- *.
  - injection Hf as ->. eauto.
  - apply IH, Hf.
Qed.

(** X14. In a run of [Button] calls on one label, a frame that follows a
    frame that returned with the left button down reports no click: a
    held press clicks once, and two successive frames never both report
    a click. *)
Theorem Button_no_repeat (Label : string) (frames : list ButtonFrame) (w : World)
    (k : nat) (f : ButtonFrame) (v : RectT * bool * bool) (r : RectT) (c h : bool) :
  frames !! k = Some f →
  (Button_frames Label frames w).1 !! k = Some (Ok v) →
  (Button_frames Label frames w).1 !! S k = Some (Ok (r, c, h)) →
  (left_down (bf_mouse f) = true → c = false)
  ∧ (v.1.2 = true → c = false).
Proof.
  intros Hf Hv Hres.
  assert (Hlen : (S k < length frames)%nat).
  { rewrite <- (Button_frames_length Label frames w). eapply lookup_lt_Some, Hres. }
  destruct (lookup_lt_is_Some_2 frames (S k) Hlen) as [f' Hf'].
  destruct (Button_frames_clicked Label frames w (S k) f' r c h Hf' Hres) as [_ HS].
  specialize (HS k f v eq_refl Hf Hv).
  assert (Hdown : left_down (bf_mouse f) = true → c = false).
  { intros Hd. rewrite HS, Hd, andb_false_r. reflexivity. }
  split; [exact Hdown|].
  destruct v as [[rv cv] hv]. cbn. intros ->. apply Hdown.
  destruct (Button_frames_nth Label frames w k f Hf) as [wk Hk].
  rewrite Hv in Hk. injection Hk as Hk.
  destruct (Button_frame Label f wk) as [wk' res] eqn:Hrun. cbn in Hk. subst res.
  apply Button_frame_returns in Hrun as [Hc _]. symmetry in Hc.
  rewrite !andb_true_iff in Hc. tauto.
Qed.

End MoreButton.

(** Proves [m w = ((m w).1, res)] for a concrete call by evaluating it. *)
Ltac evaluated :=
  apply injective_projections; [cbn [fst]; reflexivity | cbn [snd]; vm_compute; reflexivity].



(** No font is loaded yet: the call fails, and "OK" has its record. *)
Lemma Button_measure_failure_witness :
  Button (H := mono_backend) "OK" (mkNat2 100 100) "Medium" SwitchMode_callable 2 1 3
    (world_at init 100 100 1)
  = (world_at (set_Buttons <["OK" := ButtonState.mk true true true]> init) 100 100 1,
     Raise (RuntimeError "No font loaded. Use LoadFont() before rendering text.")).
Proof.
  apply (Button_measure_failure (H := mono_backend) "OK" (mkNat2 100 100) "Medium"
           SwitchMode_callable 2 1 3 (world_at init 100 100 1)).
  reflexivity.
Defined.

(** A fresh press on "OK" whose callable raises. *)
Lemma Button_callback_raises_witness :
  Button (H := mono_backend) "OK" (mkNat2 100 100) "Medium" failing_callable 2 1 3
    (world_at ui_released 100 100 1)
  = (mkWorld ui_released (sdl2.mkMouseState 100 100 1) [Invoke []],
     Raise (RuntimeError "handler failed")).
Proof.
  apply (Button_callback_raises (H := mono_backend) "OK" (mkNat2 100 100) "Medium"
           failing_callable 2 1 3 (world_at ui_released 100 100 1)
           (sdl2.mkSDL_Surface 16 16 [])); reflexivity.
Defined.

(** "OK" declared twice in a frame with a fresh press over it. *)
Lemma Button_duplicate_label_witness :
  (Button (H := mono_backend) "OK" (mkNat2 100 100) "Medium" SwitchMode_callable 2 1 3
     (world_at ui_released 100 100 1)).2
  = Ok (ok_rect, true, true)
  ∧ (Button (H := mono_backend) "OK" (mkNat2 100 100) "Medium" SwitchMode_callable 2 1 3
       (Button (H := mono_backend) "OK" (mkNat2 100 100) "Medium" SwitchMode_callable
          2 1 3 (world_at ui_released 100 100 1)).1).2
    = Ok (ok_rect, false, true)
  ∧ false = false.
Proof.
  split; [vm_compute; reflexivity|]. split; [vm_compute; reflexivity|].
  apply (Button_duplicate_label (H := mono_backend) "OK" (mkNat2 100 100)
           (mkNat2 100 100) "Medium" "Medium" SwitchMode_callable SwitchMode_callable
           2 1 3 2 1 3 (world_at ui_released 100 100 1)
           (Button (H := mono_backend) "OK" (mkNat2 100 100) "Medium"
              SwitchMode_callable 2 1 3 (world_at ui_released 100 100 1)).1
           (Button (H := mono_backend) "OK" (mkNat2 100 100) "Medium"
              SwitchMode_callable 2 1 3
              (Button (H := mono_backend) "OK" (mkNat2 100 100) "Medium"
                 SwitchMode_callable 2 1 3 (world_at ui_released 100 100 1)).1).1
           ok_rect ok_rect true false true true); evaluated.
Defined.

(** A press on "OK" held for a second frame. *)
Lemma Button_no_repeat_witness :
  (Button_frames (H := mono_backend) "OK" [ok_frame 100 100 1; ok_frame 100 100 1]
     (world_at ui_released 0 0 0)).1
  = [Ok (ok_rect, true, true); Ok (ok_rect, false, true)]
  ∧ false = false.
Proof.
  split; [vm_compute; reflexivity|].
  apply (Button_no_repeat (H := mono_backend) "OK"
           [ok_frame 100 100 1; ok_frame 100 100 1] (world_at ui_released 0 0 0)
           0%nat (ok_frame 100 100 1) (ok_rect, true, true) ok_rect false true);
    [reflexivity | vm_compute; reflexivity | vm_compute; reflexivity | reflexivity].
Defined.

(** ** More on [Checkbox] *)

Section MoreCheckbox.
Context `{RenderBackend}.

(** How the painting phase of [Checkbox] ends: it only adds draw calls,
    and when it returns these are the checked fill (if checked), the four
    border strips and the label, 30 units right of the box. *)
Lemma Checkbox_finish_outcome (Label : string) (Pos : Nat2) (FontName : string)
    (CB CI CT : Z) (hovered : bool) (w : World) :
  ∃ evs,
    (Checkbox_finish Label Pos FontName CB CI CT hovered w).1 = record_events evs w
    ∧ invocations evs = 0%nat
    ∧ ∀ c h,
        (Checkbox_finish Label Pos FontName CB CI CT hovered w).2 = Ok (c, h) →
        ∃ cb surf fill,
          py_index (ColorPaletteMode (self w)) CB = Some cb
          ∧ text_surface (self w) Label FontName CT = Ok surf
          ∧ (if c then ∃ ci, py_index (ColorPaletteMode (self w)) CI = Some ci
                             ∧ fill = [inner_fill Pos ci]
             else fill = [])
          ∧ evs = fill ++ border_strips Pos (mkNat2 20 20) 2 cb
                    ++ [blit_at (Nat2_add Pos (mkNat2 30 0)) surf].
Proof.
  unfold Checkbox_finish, RectBorder, record_events. mrun.
  destruct (CheckboxStates (self w) !! Label) as [st|] eqn:Hst; mrun;
    [|exists []; rewrite app_nil_r; destruct w; repeat split; intros ? ? [=]].
  destruct (CheckboxState.checked st) eqn:Hchk; mrun.
  - destruct (py_index (ColorPaletteMode (self w)) CI) as [ci|] eqn:Hci; mrun;
      [|exists []; rewrite app_nil_r; destruct w; repeat split; intros ? ? [=]].
    destruct (py_index (ColorPaletteMode (self w)) CB) as [cb|] eqn:Hcb; mrun;
      [|eexists; split; [reflexivity|]; split; [reflexivity | intros ? ? [=]]].
    rewrite ?Hcb; mrun. rewrite ?Hcb; mrun. rewrite ?Hcb; mrun.
    destruct (text_surface (self w) Label FontName CT) as [surf|e] eqn:Hs; mrun.
    + rewrite Hst; mrun. rewrite <- !app_assoc.
      eexists; split; [reflexivity|]. split; [reflexivity|].
      intros c h [= <- <-]. rewrite Hchk.
      exists cb, surf, [inner_fill Pos ci]. repeat split; eauto.
    + rewrite <- !app_assoc.
      eexists; split; [reflexivity|]; split; [reflexivity | intros ? ? [=]].
  - destruct (py_index (ColorPaletteMode (self w)) CB) as [cb|] eqn:Hcb; mrun;
      [|exists []; rewrite app_nil_r; destruct w; repeat split; intros ? ? [=]].
    rewrite ?Hcb; mrun. rewrite ?Hcb; mrun. rewrite ?Hcb; mrun.
    destruct (text_surface (self w) Label FontName CT) as [surf|e] eqn:Hs; mrun.
    + rewrite Hst; mrun. rewrite <- !app_assoc.
      eexists; split; [reflexivity|]. split; [reflexivity|].
      intros c h [= <- <-]. rewrite Hchk.
      exists cb, surf, []. repeat split; eauto.
    + rewrite <- !app_assoc.
      eexists; split; [reflexivity|]; split; [reflexivity | intros ? ? [=]].
Qed.


(** Whatever its outcome, a [Checkbox] call ends in the world it found,
    with the record of its label set and draw calls added. *)
Lemma Checkbox_world (Label : string) (Pos : Nat2) (FontName : string)
    (CB CI CIH CT : Z) (w : World) :
  ∃ st evs,
    (Checkbox Label Pos FontName CB CI CIH CT w).1
    = mkWorld (set_CheckboxStates <[Label := st]> (self w)) (mouse w) (events w ++ evs)
    ∧ invocations evs = 0%nat.
Proof.
  rewrite Checkbox_eq. cbv zeta.
  set (st0 := stored_checkbox Label (self w)).
  set (h := PointInsideRect (cursor (mouse w)) Pos (mkNat2 20 20)).
  assert (Htint : ∃ tint,
    when (h && negb (CheckboxState.checked st0))
      (UiManager.Rect (Nat2_add Pos (mkNat2 4 4)) (mkNat2 12 12) CIH)
      (with_self (ensure_checkbox Label (self w)) w)
    = (record_events tint (with_self (ensure_checkbox Label (self w)) w),
       match tint with
       | [] => if h && negb (CheckboxState.checked st0) then Raise IndexError else Ok tt
       | _ => Ok tt
       end)
    ∧ invocations tint = 0%nat).
  { destruct (h && negb (CheckboxState.checked st0)); cbn [when].
    - rewrite Rect_eq. destruct (py_index _ _) as [c|].
      + exists [fill_at (Nat2_add Pos (mkNat2 4 4)) (mkNat2 12 12) c]. auto.
      + exists []. unfold record_events. rewrite app_nil_r.
        destruct w; auto.
    - exists []. unfold record_events. rewrite app_nil_r. destruct w; auto. }
  destruct Htint as (tint & -> & Htint).
  rewrite ensure_checkbox_eq. fold st0.
  destruct (match tint with
            | [] => if h && negb (CheckboxState.checked st0)
                    then Raise IndexError else Ok ()
            | _ :: _ => Ok ()
            end) as [[]|e].
  - match goal with
    | |- context [Checkbox_finish ?L ?P ?F ?cb ?ci ?ct ?hov ?W] =>
        destruct (Checkbox_finish_outcome L P F cb ci ct hov W) as (evs & -> & Hinv & _)
    end.
    eexists _, (tint ++ evs). unfold record_events, with_self. cbn [self mouse events].
    rewrite app_assoc. split; [reflexivity|].
    rewrite invocations_app. lia.
  - cbn [fst]. exists st0, tint. auto.
Qed.

(** X15. Whatever its outcome, a [Checkbox] call invokes no callable and
    leaves the engine as it was but for the record of its label: the
    button records, the records of other checkboxes, the palette, the mode
    and the fonts are unchanged. *)
Theorem Checkbox_frame_property (Label : string) (Pos : Nat2) (FontName : string)
    (CB CI CIH CT : Z) (w : World) :
  invocations (events (Checkbox Label Pos FontName CB CI CIH CT w).1)
  = invocations (events w)
  ∧ Buttons (self (Checkbox Label Pos FontName CB CI CIH CT w).1) = Buttons (self w)
  ∧ (∀ l, l ≠ Label →
       CheckboxStates (self (Checkbox Label Pos FontName CB CI CIH CT w).1) !! l
       = CheckboxStates (self w) !! l)
  ∧ ColorPalette (self (Checkbox Label Pos FontName CB CI CIH CT w).1)
    = ColorPalette (self w)
  ∧ IsDarkMode (self (Checkbox Label Pos FontName CB CI CIH CT w).1)
    = IsDarkMode (self w)
  ∧ Fonts (self (Checkbox Label Pos FontName CB CI CIH CT w).1) = Fonts (self w)
  ∧ mouse (Checkbox Label Pos FontName CB CI CIH CT w).1 = mouse w.
Proof.
  destruct (Checkbox_world Label Pos FontName CB CI CIH CT w) as (st & evs & -> & Hinv).
  cbn. rewrite invocations_app, Hinv.
  repeat split; [lia|]. intros l Hne. apply lookup_insert_ne. auto.
Qed.



Lemma toggle_rule_held (st : CheckboxState.t) :
  CheckboxState.mouse_down st = true → toggle_rule true true st = st.
Proof. intros Hmd. unfold toggle_rule. rewrite Hmd. reflexivity. Qed.

(** In a run of hovered frames with the button down that all return, the
    box reports one value throughout: its stored one when the press is
    already recorded, the opposite one when it is fresh. *)
Lemma Checkbox_frames_held (Label : string) (frames : list CheckboxFrame) :
  ∀ (w : World) (cs : list bool),
    Forall (λ f, left_down (cf_mouse f) = true) frames →
    (Checkbox_frames Label frames w).1 = (λ c, Ok (c, true)) <$> cs →
    Forall (λ c, c = xorb (CheckboxState.checked (stored_checkbox Label (self w)))
                          (negb (CheckboxState.mouse_down
                                   (stored_checkbox Label (self w))))) cs.
Proof.
  induction frames as [|f rest IH]; intros w cs Hdown Hres.
  - destruct cs; [constructor | discriminate].
  - rewrite Checkbox_frames_cons in Hres. cbn [fst] in Hres.
    destruct cs as [|c cs]; [discriminate|].
    injection Hres as Hc Hrest.
    apply Forall_cons in Hdown as [Hd Hdown].
    destruct (Checkbox_frame Label f w) as [w1 r1] eqn:Hrun.
    cbn [fst snd] in Hc, Hrest. subst r1.
    apply Checkbox_frame_returns in Hrun as [Hst ->].
    specialize (IH w1 cs Hdown Hrest).
    rewrite Hst, Hd in *. clear Hst.
    destruct (stored_checkbox Label (self w)) as [chk md].
    constructor.
    + destruct chk, md; reflexivity.
    + eapply Forall_impl; [exact IH|]. cbn. intros c' ->.
      destruct chk, md; reflexivity.
Qed.

(** X17. Holding the button over a checkbox toggles it once, however many
    frames the press lasts: from a record with [mouse_down] false, every
    frame of a run of hovered frames with the button down that all return
    reports the opposite of the stored [checked]. *)
Theorem Checkbox_hold_toggles_once (Label : string) (frames : list CheckboxFrame)
    (w : World) (cs : list bool) :
  CheckboxState.mouse_down (stored_checkbox Label (self w)) = false →
  Forall (λ f, left_down (cf_mouse f) = true) frames →
  (Checkbox_frames Label frames w).1 = (λ c, Ok (c, true)) <$> cs →
  Forall (λ c, c = negb (CheckboxState.checked (stored_checkbox Label (self w)))) cs.
Proof.
  intros Hmd Hdown Hres.
  pose proof (Checkbox_frames_held Label frames w cs Hdown Hres) as Hall.
  rewrite Hmd in Hall. eapply Forall_impl; [exact Hall|].
  cbn. intros c ->. destruct (CheckboxState.checked _); reflexivity.
Qed.

(** X18. Two presses restore a checkbox: over hovered frames that return,
    press, release, press reports the opposite of the stored [checked] and
    then the stored [checked] again. *)
Theorem Checkbox_press_twice (Label : string) (f1 f2 f3 : CheckboxFrame) (w : World)
    (c1 c2 c3 : bool) :
  CheckboxState.mouse_down (stored_checkbox Label (self w)) = false →
  left_down (cf_mouse f1) = true →
  left_down (cf_mouse f2) = false →
  left_down (cf_mouse f3) = true →
  (Checkbox_frames Label [f1; f2; f3] w).1
  = [Ok (c1, true); Ok (c2, true); Ok (c3, true)] →
  c1 = negb (CheckboxState.checked (stored_checkbox Label (self w)))
  ∧ c2 = c1
  ∧ c3 = CheckboxState.checked (stored_checkbox Label (self w)).
Proof.
  intros Hmd D1 D2 D3 Hres.
  rewrite !Checkbox_frames_cons in Hres. cbn [fst snd] in Hres.
  destruct (Checkbox_frame Label f1 w) as [w1 r1] eqn:R1. cbn [fst snd] in Hres.
  destruct (Checkbox_frame Label f2 w1) as [w2 r2] eqn:R2. cbn [fst snd] in Hres.
  destruct (Checkbox_frame Label f3 w2) as [w3 r3] eqn:R3. cbn [fst snd] in Hres.
  injection Hres as -> -> ->.
  apply Checkbox_frame_returns in R1 as [S1 ->].
  apply Checkbox_frame_returns in R2 as [S2 ->].
  apply Checkbox_frame_returns in R3 as [S3 ->].
  rewrite S3, S2, S1, D1, D2, D3.
  destruct (stored_checkbox Label (self w)) as [chk md]. cbn in Hmd. subst md.
  destruct chk; auto.
Qed.


(** X19. The click of a button is decided across the other widgets of the
    frame: with a [Button] call on another label that invokes nothing and
    a [Checkbox] call, whatever their outcomes, between two returning
    calls on a label, the second reports a click exactly when it is
    hovered with the left button down and the first sampled it up. *)
Theorem Button_click_among_widgets (Label Other Box : string)
    (f1 f2 f4 : ButtonFrame) (f3 : CheckboxFrame) (w0 w1 w2 w3 w4 : World)
    (res2 : Result (RectT * bool * bool)) (res3 : Result (bool * bool))
    (r1 r4 : RectT) (c1 c4 h1 h4 : bool) :
  Other ≠ Label →
  Button_frame Label f1 w0 = (w1, Ok (r1, c1, h1)) →
  Button_frame Other f2 w1 = (w2, res2) →
  invocations (events w2) = invocations (events w1) →
  Checkbox_frame Box f3 w2 = (w3, res3) →
  Button_frame Label f4 w3 = (w4, Ok (r4, c4, h4)) →
  c4 = h4 && left_down (bf_mouse f4) && negb (left_down (bf_mouse f1)).
Proof.
  intros Hne R1 R2 Hinv R3 R4.
  apply Button_frame_returns in R1 as [_ P1].
  apply Button_frame_returns in R4 as [-> _].
  unfold Button_frame in R2.
  apply Button_quiet_self in R2 as [st Hself]; [|exact Hinv].
  assert (P2 : stored_prev Label (self w2) = stored_prev Label (self w1)).
  { rewrite Hself. unfold stored_prev. cbn.
    rewrite lookup_insert_ne by exact Hne. reflexivity. }
  assert (P3 : stored_prev Label (self w3) = stored_prev Label (self w2)).
  { unfold Checkbox_frame in R3.
    match type of R3 with
    | Checkbox ?L ?P ?F ?a ?b ?c ?d ?W = _ =>
        destruct (Checkbox_world L P F a b c d W) as (st3 & evs & Hw & _)
    end.
    rewrite R3 in Hw. cbn [fst] in Hw. rewrite Hw. reflexivity. }
  rewrite P3, P2, P1. reflexivity.
Qed.

End MoreCheckbox.


(** The new checkbox "X" pressed and held for three frames. *)
Lemma Checkbox_hold_toggles_once_witness :
  (Checkbox_frames (H := mono_backend) "X"
     [x_frame 110 170 1; x_frame 110 170 1; x_frame 110 170 1]
     (world_at ui_ready 0 0 0)).1
  = (λ c, Ok (c, true)) <$> [true; true; true]
  ∧ Forall (λ c, c = true) [true; true; true].
Proof.
  assert (Hrun :
    (Checkbox_frames (H := mono_backend) "X"
       [x_frame 110 170 1; x_frame 110 170 1; x_frame 110 170 1]
       (world_at ui_ready 0 0 0)).1
    = (λ c, Ok (c, true)) <$> [true; true; true]) by (vm_compute; reflexivity).
  split; [exact Hrun|].
  apply (Checkbox_hold_toggles_once (H := mono_backend) "X"
           [x_frame 110 170 1; x_frame 110 170 1; x_frame 110 170 1]
           (world_at ui_ready 0 0 0) [true; true; true]);
    [reflexivity | repeat constructor | exact Hrun].
Defined.

(** The new checkbox "X" pressed, released and pressed again. *)
Lemma Checkbox_press_twice_witness :
  (Checkbox_frames (H := mono_backend) "X"
     [x_frame 110 170 1; x_frame 110 170 0; x_frame 110 170 1]
     (world_at ui_ready 0 0 0)).1
  = [Ok (true, true); Ok (true, true); Ok (false, true)]
  ∧ true = negb false ∧ true = true ∧ false = false.
Proof.
  assert (Hrun :
    (Checkbox_frames (H := mono_backend) "X"
       [x_frame 110 170 1; x_frame 110 170 0; x_frame 110 170 1]
       (world_at ui_ready 0 0 0)).1
    = [Ok (true, true); Ok (true, true); Ok (false, true)]) by (vm_compute; reflexivity).
  split; [exact Hrun|].
  apply (Checkbox_press_twice (H := mono_backend) "X"
           (x_frame 110 170 1) (x_frame 110 170 0) (x_frame 110 170 1)
           (world_at ui_ready 0 0 0) true true false);
    [reflexivity .. | exact Hrun].
Defined.

(** "OK" seen with the button up; then, in the next frame, "Quit", the
    checkbox "X" and "OK" again, with a press over "OK". *)
Lemma Button_click_among_widgets_witness :
  Button_frame (H := mono_backend) "OK" (ok_frame 100 100 1) session_3
  = (session_4, Ok (ok_rect, true, true))
  ∧ true = true && true && negb false.
Proof.
  assert (R4 : Button_frame (H := mono_backend) "OK" (ok_frame 100 100 1) session_3
               = (session_4, Ok (ok_rect, true, true))) by (vm_compute; reflexivity).
  split; [exact R4|].
  apply (Button_click_among_widgets (H := mono_backend) "OK" "Quit" "X"
           (ok_frame 100 100 0) (quit_frame 100 100 1) (ok_frame 100 100 1)
           (x_frame 100 100 1) session_0 session_1 session_2 session_3 session_4
           (Ok (mkRect (mkNat2 90 190) (mkNat2 52 36), false, false))
           (Ok (false, false))
           ok_rect ok_rect false true true true).
  - discriminate.
  - vm_compute. reflexivity.
  - vm_compute. reflexivity.
  - vm_compute. reflexivity.
  - vm_compute. reflexivity.
  - exact R4.
Defined.

(** ** More on [TextWrapped] *)

Section MoreWrapped.
Context `{RenderBackend}.

Lemma str_split_nonempty (sep : ascii) (s : string) : str_split sep s ≠ [].
Proof.
  induction s as [|c s IH]; cbn; [discriminate|].
  destruct (Ascii.eqb c sep); [discriminate|].
  destruct (str_split sep s); discriminate.
Qed.

Lemma str_join_cons (sep : ascii) (piece : string) (pieces : list string) :
  pieces ≠ [] →
  str_join sep (piece :: pieces) = piece +:+ String sep (str_join sep pieces).
Proof. destruct pieces; [contradiction | reflexivity]. Qed.

(** X20. Splitting at a separator and joining with it gives the string
    back; no piece holds the separator. *)
Theorem str_split_join (sep : ascii) (s : string) :
  str_join sep (str_split sep s) = s
  ∧ Forall (λ piece, ∀ i, String.get i piece ≠ Some sep) (str_split sep s).
Proof.
  induction s as [|c s [IHj IHf]]; cbn [str_split].
  - split; [reflexivity|]. constructor; [|constructor]. intros i. destruct i; discriminate.
  - pose proof (str_split_nonempty sep s) as Hnil.
    destruct (Ascii.eqb_spec c sep) as [->|Hne].
    + split.
      * rewrite str_join_cons by exact Hnil. rewrite IHj. reflexivity.
      * constructor; [|exact IHf]. intros i. destruct i; discriminate.
    + destruct (str_split sep s) as [|piece pieces] eqn:Hs; [contradiction|].
      apply Forall_cons in IHf as [Hp Hps].
      split.
      * destruct pieces as [|p2 ps].
        -- cbn in IHj |- *. rewrite IHj. reflexivity.
        -- rewrite str_join_cons in IHj |- * by discriminate.
           rewrite <- IHj. reflexivity.
      * constructor; [|exact Hps].
        intros [|i]; cbn; [congruence | apply Hp].
Qed.




Lemma for_each_blank (lines : list string) (draw : Z → string → M unit) (w : World) :
  Forall (λ line, line = "") lines →
  ∀ k, for_each (enumerate_from k lines)
         (λ item : Z * string,
            let '(Idx, Line) := item in
            if String.eqb Line "" then mret tt else draw Idx Line) w
       = (w, Ok tt).
Proof.
  induction 1 as [|line rest -> _ IH]; intros k; [reflexivity|].
  cbn [enumerate_from for_each]. rewrite bind_eq. cbn. apply IH.
Qed.

(** X22. A string with no non-empty line draws nothing and never fails,
    whatever the font name and the colour index. *)
Theorem TextWrapped_blank (Str : string) (Pos : Nat2) (FontName : string)
    (ColorIdx : Z) (w : World) :
  Forall (λ line, line = "") (str_split newline Str) →
  TextWrapped Str Pos FontName ColorIdx w = (w, Ok tt).
Proof.
  intros Hblank. unfold TextWrapped, enumerate.
  apply (for_each_blank _
           (λ Idx Line,
              Text Line (Nat2_add Pos (mkNat2 0 (Idx * 16))) FontName ColorIdx false ;;
              mret tt) w Hblank).
Qed.

End MoreWrapped.


Lemma TextWrapped_blank_witness :
  TextWrapped (H := mono_backend) (String newline (String newline EmptyString))
    (mkNat2 600 10) "Large" 99 (world_at init 0 0 0)
  = (world_at init 0 0 0, Ok tt).
Proof.
  apply (TextWrapped_blank (H := mono_backend)).
  repeat constructor.
Defined.

(** ** Mouse buttons *)

Section MouseButtons.
Context `{RenderBackend} `{FontBackend}.

Lemma land_pow2_testbit (x : Z) (n : Z) :
  0 ≤ n → negb (Z.land x (Z.shiftl 1 n) =? 0) = Z.testbit x n.
Proof.
  intros Hn. rewrite Z.shiftl_1_l.
  destruct (Z.testbit x n) eqn:Hbit.
  - apply negb_true_iff, Z.eqb_neq. intros Hz.
    apply (f_equal (λ z, Z.testbit z n)) in Hz.
    rewrite Z.land_spec, Hbit, Z.pow2_bits_true, Z.bits_0 in Hz by lia. discriminate.
  - apply negb_false_iff, Z.eqb_eq. apply Z.bits_inj'. intros m Hm.
    rewrite Z.land_spec, Z.bits_0, Z.pow2_bits_eqb by lia.
    destruct (Z.eqb_spec n m) as [->|]; [rewrite Hbit; reflexivity | apply andb_false_r].
Qed.

(** X23. [IsClick] reads one bit of the button mask and leaves the world
    alone: bit 0 for "Left", bit 2 for "Right" and bit 1 for "Middle"; any
    other name raises [ValueError]. *)
Theorem IsClick_bits (w : World) (Button : string) :
  IsClick Left w = (w, Ok (Z.testbit (sdl2.button_state (mouse w)) 0))
  ∧ IsClick Right w = (w, Ok (Z.testbit (sdl2.button_state (mouse w)) 2))
  ∧ IsClick Middle w = (w, Ok (Z.testbit (sdl2.button_state (mouse w)) 1))
  ∧ IsClick_named "Left" w = IsClick Left w
  ∧ IsClick_named "Right" w = IsClick Right w
  ∧ IsClick_named "Middle" w = IsClick Middle w
  ∧ (Button ≠ "Left" → Button ≠ "Right" → Button ≠ "Middle" →
     IsClick_named Button w
     = (w, Raise (ValueError "Button must be 'Left', 'Right', or 'Middle'"))).
Proof.
  repeat split.
  - change (IsClick Left w)
      with (w, Ok (negb (Z.land (sdl2.button_state (mouse w)) (Z.shiftl 1 0) =? 0))).
    rewrite land_pow2_testbit by lia. reflexivity.
  - change (IsClick Right w)
      with (w, Ok (negb (Z.land (sdl2.button_state (mouse w)) (Z.shiftl 1 2) =? 0))).
    rewrite land_pow2_testbit by lia. reflexivity.
  - change (IsClick Middle w)
      with (w, Ok (negb (Z.land (sdl2.button_state (mouse w)) (Z.shiftl 1 1) =? 0))).
    rewrite land_pow2_testbit by lia. reflexivity.
  - intros HL HR HM. unfold IsClick_named. rewrite bind_eq. cbn -[String.eqb].
    rewrite (proj2 (String.eqb_neq _ _) HL), (proj2 (String.eqb_neq _ _) HR),
      (proj2 (String.eqb_neq _ _) HM). reflexivity.
Qed.

End MouseButtons.

Lemma IsClick_bits_witness :
  IsClick_named "Centre" (world_at init 0 0 5)
  = (world_at init 0 0 5, Raise (ValueError "Button must be 'Left', 'Right', or 'Middle'")).
Proof.
  apply (IsClick_bits (world_at init 0 0 5) "Centre"); discriminate.
Defined.

(** ** Loading fonts *)

Section LoadingFonts.
Context `{RenderBackend} `{FontBackend}.


End LoadingFonts.


(** ** Palettes given as tuples *)

Section Tuples.

Lemma TupleToVec4_Ok (t : list Z) :
  (3 ≤ length t)%nat →
  ∃ t0 t1 t2 rest,
    t = t0 :: t1 :: t2 :: rest
    ∧ TupleToVec4 t = Ok (mkVec4 (inject_Z t0) (inject_Z t1) (inject_Z t2) 1).
Proof.
  destruct t as [|t0 [|t1 [|t2 rest]]]; cbn; try lia. intros _.
  exists t0, t1, t2, rest. split; reflexivity.
Qed.

Lemma TupleToVec4_short (t : list Z) :
  (length t < 3)%nat → TupleToVec4 t = Raise IndexError.
Proof.
  destruct t as [|t0 [|t1 [|t2 rest]]]; cbn; try lia; reflexivity.
Qed.

(** X25. [ColorPaletteToVec4] returns exactly when every tuple has three
    components or more: the palette then has one colour per tuple, in
    order, made of the first three components with the fourth channel 1.
    A tuple with fewer components makes it raise [IndexError]. *)
Theorem ColorPaletteToVec4_total (l : list (list Z)) :
  (Forall (λ t, (3 ≤ length t)%nat) l →
   ∃ vs, ColorPaletteToVec4 l = Ok vs
         ∧ length vs = length l
         ∧ ∀ i t, l !! i = Some t →
             ∃ v, vs !! i = Some v
                  ∧ [R v; G v; B v] = inject_Z <$> take 3 t
                  ∧ A v = 1%Q)
  ∧ (Exists (λ t, (length t < 3)%nat) l → ColorPaletteToVec4 l = Raise IndexError).
Proof.
  split.
  - induction 1 as [|t l Ht _ (vs & Hvs & Hlen & Hnth)].
    + exists []. repeat split. intros i t Hi. discriminate.
    + destruct (TupleToVec4_Ok t Ht) as (t0 & t1 & t2 & rest & -> & Hv).
      cbn [ColorPaletteToVec4]. rewrite Hv, Hvs. eexists. split; [reflexivity|].
      split; [cbn; lia|].
      intros [|i] t Hi; cbn in Hi.
      * injection Hi as <-. eexists. split; [reflexivity|]. split; reflexivity.
      * apply Hnth, Hi.
  - induction l as [|t l IH]; intros Hex; [inversion Hex|].
    cbn [ColorPaletteToVec4].
    destruct (le_lt_dec 3 (length t)) as [Hlong|Hshort].
    + destruct (TupleToVec4_Ok t Hlong) as (t0 & t1 & t2 & rest & -> & Hv).
      rewrite Hv. apply Exists_cons in Hex as [Hbad|Hex]; [cbn in Hbad; lia|].
      rewrite (IH Hex). reflexivity.
    + rewrite TupleToVec4_short by exact Hshort. reflexivity.
Qed.

End Tuples.

Lemma ColorPaletteToVec4_total_witness :
  ColorPaletteToVec4 [[0; 1; 0]; [1; 1]] = Raise IndexError.
Proof.
  apply (ColorPaletteToVec4_total [[0; 1; 0]; [1; 1]]).
  apply Exists_cons_tl, Exists_cons_hd. simpl. lia.
Defined.
